(** * Tab: one tab's pane tree, active pane, title, rename box and colour

    Shallow embedding of [src/cascadia/TerminalApp/Tab.cpp].

    The C++ objects the Tab talks to (terminal controls, the TabViewItem,
    the rename TextBox, the dispatcher queue, the registered observers) are
    kept in an explicit environment [Env]; the Tab's own fields are the
    record [Tab.t].  A member function is a computation in a state monad
    with failure over [Tab.t * Env]; failure stands for a call through a
    null WinRT reference and, at the level of a [World], for a member
    access on a Tab that no longer exists.  A coroutine body after its [co_await], and a
    lambda handed to [RunAsync], is a [Task] that the dispatcher runs later
    against a [World] in which the Tab may no longer exist
    ([weakThis.get()] is the [live] field). *)

From Stdlib Require Import ZArith QArith String List Bool Lia.
From stdpp Require Import gmap strings list.

Open Scope string_scope.
Open Scope list_scope.

(** ** Basic handles and values *)

Abbreviation hstring := string.
Abbreviation TermControl := nat.   (* a strong reference to a control object *)
Abbreviation GUID := nat.          (* a profile identifier *)
Abbreviation PaneRef := nat.       (* the identity of a std::shared_ptr<Pane> *)
Abbreviation TextBoxRef := nat.    (* the identity of a Controls::TextBox *)

(** [winrt::Windows::UI::Color]: four 8-bit channels. *)
Module Color.
Record t := mk { A : Z; R : Z; G : Z; B : Z }.

(** [Colors::Black()] and [Colors::White()]. *)
Definition Black : t := mk 255 0 0 0.
Definition White : t := mk 255 255 255 255.

(** [c.A = a] on a copy of [c]. *)
Definition with_A (a : Z) (c : t) : t := mk a (R c) (G c) (B c).

#[global] Instance eq_dec : EqDecision t.
Proof. solve_decision. Defined.
End Color.

(** [TerminalApp::ColorHelper], declared in ColorHelper.h; its two
    functions used by the Tab are taken as parameters. *)
Class ColorHelper := {
  IsBrightColor : Color.t -> bool;
  GetAccentColor : Color.t -> Color.t
}.

(** [winrt::TerminalApp::SplitState]. *)
Inductive SplitState := Automatic | NoSplit | Vertical | Horizontal.

(** [Windows::System::VirtualKey], as far as the rename box tells keys
    apart. *)
Inductive VirtualKey := Enter | Escape | OtherKey (code : nat).

(** ** The pane tree *)

Module Pane.

(** Modelled from the spec: Pane.cpp is not among the sources.  A pane
    node is a Leaf (session handle, profile, active flag) or a Split
    (orientation, ratio of the first child, two children).  Every node
    carries the identity of the C++ object, since the Tab holds
    [std::shared_ptr<Pane>] values and compares them. *)
Inductive t :=
| Leaf (ref : PaneRef) (control : TermControl) (profile : GUID) (active : bool)
| SplitNode (ref : PaneRef) (orientation : SplitState) (ratio : Q)
            (first second : t).

Definition ref_of (p : t) : PaneRef :=
  match p with
  | Leaf r _ _ _ => r
  | SplitNode r _ _ _ _ => r
  end.

(** The node a reference denotes: the first one, in pre-order, that
    carries it. *)
Fixpoint find (r : PaneRef) (p : t) : option t :=
  if decide (ref_of p = r) then Some p
  else match p with
       | Leaf _ _ _ _ => None
       | SplitNode _ _ _ a b =>
           match find r a with
           | Some n => Some n
           | None => find r b
           end
       end.

(** Modelled from the spec: [Pane::GetTerminalControl] on the pane [r]:
    the session of a Leaf, null for a Split. *)
Definition GetTerminalControl (r : PaneRef) (root : t) : option TermControl :=
  match find r root with
  | Some (Leaf _ c _ _) => Some c
  | _ => None
  end.

(** The tree with the node that [r] denotes replaced by [n]. *)
Fixpoint replace (r : PaneRef) (n : t) (p : t) : t :=
  if decide (ref_of p = r) then n
  else match p with
       | Leaf _ _ _ _ => p
       | SplitNode r' o q a b =>
           match find r a with
           | Some _ => SplitNode r' o q (replace r n a) b
           | None => SplitNode r' o q a (replace r n b)
           end
       end.

(** Modelled from the spec: [Pane::ClearActive], "clears the active flag
    on every Leaf in the tree (a full tree walk)". *)
Fixpoint ClearActive (p : t) : t :=
  match p with
  | Leaf r c g _ => Leaf r c g false
  | SplitNode r o q a b => SplitNode r o q (ClearActive a) (ClearActive b)
  end.

(** Modelled from the spec: [Pane::SetActive] on the pane [r]: sets the
    active flag of that Leaf (a Split node has no such flag). *)
Definition SetActive (r : PaneRef) (root : t) : t :=
  match find r root with
  | Some (Leaf r' c g _) => replace r (Leaf r' c g true) root
  | _ => root
  end.

(** Modelled from the spec: [Pane::Split] on the pane [r]: "replaces the
    target Leaf in-place with a new Split node whose two children are a
    Leaf holding the original session and a Leaf holding
    newSession/newProfile; ratio defaults to 0.5".  The Split node keeps
    the identity of the pane that was split; [first] and [second] are the
    identities of the two new leaves, the first one taking over the
    session, profile and flag of the old leaf.  [None] when [r] is not a
    Leaf of the tree (the operation is specified for leaves only). *)
Definition Split (r : PaneRef) (splitType : SplitState) (profile : GUID)
           (control : TermControl) (first second : PaneRef) (root : t)
  : option t :=
  match find r root with
  | Some (Leaf r' c g a) =>
      Some (replace r (SplitNode r' splitType (1 # 2)
                                 (Leaf first c g a)
                                 (Leaf second control profile false))
                    root)
  | _ => None
  end.

(** All identities in the tree, in pre-order. *)
Fixpoint refs (p : t) : list PaneRef :=
  match p with
  | Leaf r _ _ _ => [r]
  | SplitNode r _ _ a b => r :: refs a ++ refs b
  end.

(** The identities of the leaves whose active flag is set. *)
Fixpoint active_leaves (p : t) : list PaneRef :=
  match p with
  | Leaf r _ _ a => if a then [r] else []
  | SplitNode _ _ _ a b => active_leaves a ++ active_leaves b
  end.

(** What a lookup of [x] shows: nothing, a Split, or a Leaf's session. *)
Definition view (x : PaneRef) (p : t) : option (option TermControl) :=
  match find x p with
  | Some (Leaf _ c _ _) => Some (Some c)
  | Some (SplitNode _ _ _ _ _) => Some None
  | None => None
  end.

End Pane.

(** ** External collaborators *)

(** What the Tab reads from and writes to a terminal control. *)
Module Control.
Record t := mk { Title : hstring; ScrollOffset : Z }.
End Control.

(** [Windows::UI::Xaml::Thickness] with whole-number lengths
    (left, top, right, bottom). *)
Abbreviation Thickness := (Z * Z * Z * Z)%type.

(** The properties of the rename [Controls::TextBox] that the Tab sets. *)
Module TextBox.
Record t := mk {
  Text : hstring;
  MinHeight : Z;
  Padding : Thickness;
  Margin : Thickness
}.

Definition with_Text (s : hstring) (b : t) : t :=
  mk s (MinHeight b) (Padding b) (Margin b).
End TextBox.

(** [Media::SolidColorBrush]: a brush is its colour. *)
Inductive SolidColorBrush := Brush (color : Color.t).

(** The [MUX::Controls::TabViewItem] of the tab: its resource dictionary
    and what its Header holds. *)
Module TabViewItem.
Inductive HeaderContent :=
| OtherHeader
| TextBoxHeader (box : TextBoxRef).

Record t := mk {
  Resources : gmap hstring SolidColorBrush;
  Header : HeaderContent
}.

Definition with_Resources (r : gmap hstring SolidColorBrush) (i : t) : t :=
  mk r (Header i).
Definition with_Header (h : HeaderContent) (i : t) : t :=
  mk (Resources i) h.
End TabViewItem.

(** The result of [GetColoredIcon<BitmapIconSource>(path)] (Utils.h), kept
    as the path it was built from. *)
Inductive IconSourceValue := ColoredIcon (path : hstring).

(** Everything the Tab does to the outside, in the order it happens: the
    events it raises to its observers, and the calls it makes on controls
    and on the presentation layer. *)
Inductive Event :=
| ActivePaneChanged                            (* _ActivePaneChangedHandlers() *)
| ColorSelected (color : Color.t)              (* _colorSelected(color) *)
| ColorCleared                                 (* _colorCleared() *)
| TitleSet (value : hstring)                   (* Title(value) *)
| IconSourceSet (value : IconSourceValue)      (* IconSource(value) *)
| ControlFocus (control : TermControl)         (* control.Focus(Programmatic) *)
| ControlScrollViewport (control : TermControl) (viewTop : Z)
| GoToState (stateName : hstring)              (* VisualStateManager::GoToState *)
| ControlHandlersAttached (control : TermControl)
| PaneHandlerAttached (pane : PaneRef)
| TextBoxHandlersAttached (box : TextBoxRef)
| KeyHandled                                   (* e.Handled(true) *)
| TextBoxSelectAll (box : TextBoxRef)          (* textBox.SelectAll() *)
| TextBoxFocus (box : TextBoxRef)              (* textBox.Focus(Programmatic) *)
| LayoutUpdatedRevoked       (* _tabRenameBoxLayoutUpdatedRevoker.revoke() *)
| RootPaneRelayout                             (* _rootPane->Relayout() *)
| RootPaneShutdown                             (* _rootPane->Shutdown() *)
| Closed.                                      (* _ClosedHandlers(nullptr, nullptr) *)

(** Work handed to the dispatcher: the rest of a coroutine after its
    [co_await winrt::resume_foreground(...)], or a [RunAsync] lambda, with
    the values it captured. *)
Inductive Task :=
| UpdateIcon_resume
| UpdateTitle_resume
| Scroll_resume (control : TermControl) (delta : Z)
| SetTabColor_dispatched (color : Color.t).

Record Env := mkEnv {
  controls : TermControl -> Control.t;      (* the control objects *)
  textBoxes : gmap TextBoxRef TextBox.t;    (* the TextBox objects *)
  nextPane : PaneRef;                       (* identity of the next new Pane *)
  pending : list Task;                      (* the dispatcher queue *)
  trace : list Event
}.

Definition with_controls (f : TermControl -> Control.t) (e : Env) : Env :=
  mkEnv f (textBoxes e) (nextPane e) (pending e) (trace e).
Definition with_textBoxes (b : gmap TextBoxRef TextBox.t) (e : Env) : Env :=
  mkEnv (controls e) b (nextPane e) (pending e) (trace e).
Definition with_nextPane (n : PaneRef) (e : Env) : Env :=
  mkEnv (controls e) (textBoxes e) n (pending e) (trace e).
Definition with_pending (q : list Task) (e : Env) : Env :=
  mkEnv (controls e) (textBoxes e) (nextPane e) q (trace e).
Definition with_trace (tr : list Event) (e : Env) : Env :=
  mkEnv (controls e) (textBoxes e) (nextPane e) (pending e) tr.

(** A C++ [int]: 32 bits, two's complement. *)
Definition wrap_int (z : Z) : Z :=
  ((z + 2147483648) mod 4294967296 - 2147483648)%Z.

(** Modelled from the spec: [TermControl::ScrollViewport(viewTop)], the
    "SetScrollOffset(offset)" of the session interface: the control's
    scroll offset becomes [viewTop]. *)
Definition ScrollViewport (control : TermControl) (viewTop : Z) (e : Env) : Env :=
  with_trace (trace e ++ [ControlScrollViewport control viewTop])
    (with_controls
       (fun c => if decide (c = control)
                 then Control.mk (Control.Title (controls e c)) viewTop
                 else controls e c)
       e).

(** How often the trace raises each of the Tab's own events. *)
Fixpoint count (f : Event -> bool) (tr : list Event) : nat :=
  match tr with
  | [] => 0
  | ev :: tr' => (if f ev then 1 else 0) + count f tr'
  end.

Definition is_ActivePaneChanged (ev : Event) : bool :=
  match ev with ActivePaneChanged => true | _ => false end.
Definition is_ColorSelected (ev : Event) : bool :=
  match ev with ColorSelected _ => true | _ => false end.
Definition is_ColorCleared (ev : Event) : bool :=
  match ev with ColorCleared => true | _ => false end.
Definition is_ControlFocus (ev : Event) : bool :=
  match ev with ControlFocus _ => true | _ => false end.

(** ** The Tab *)

Module Tab.

(** The data members of [Tab] (Tab.h), with the two observable
    properties [Title] and [IconSource]. *)
Record t := mk {
  _rootPane : Pane.t;
  _activePane : PaneRef;
  _focused : bool;
  _controlInitialized : bool;
  _lastIconPath : hstring;
  _runtimeTabText : hstring;
  _inRename : bool;
  _tabColor : option Color.t;
  _tabViewItem : option TabViewItem.t;
  Title : hstring;
  IconSource : option IconSourceValue
}.

Definition set_rootPane (v : Pane.t) (x : t) : t :=
  mk v (_activePane x) (_focused x) (_controlInitialized x) (_lastIconPath x)
     (_runtimeTabText x) (_inRename x) (_tabColor x) (_tabViewItem x)
     (Title x) (IconSource x).
Definition set_activePane (v : PaneRef) (x : t) : t :=
  mk (_rootPane x) v (_focused x) (_controlInitialized x) (_lastIconPath x)
     (_runtimeTabText x) (_inRename x) (_tabColor x) (_tabViewItem x)
     (Title x) (IconSource x).
Definition set_focused (v : bool) (x : t) : t :=
  mk (_rootPane x) (_activePane x) v (_controlInitialized x) (_lastIconPath x)
     (_runtimeTabText x) (_inRename x) (_tabColor x) (_tabViewItem x)
     (Title x) (IconSource x).
Definition set_controlInitialized (v : bool) (x : t) : t :=
  mk (_rootPane x) (_activePane x) (_focused x) v (_lastIconPath x)
     (_runtimeTabText x) (_inRename x) (_tabColor x) (_tabViewItem x)
     (Title x) (IconSource x).
Definition set_lastIconPath (v : hstring) (x : t) : t :=
  mk (_rootPane x) (_activePane x) (_focused x) (_controlInitialized x) v
     (_runtimeTabText x) (_inRename x) (_tabColor x) (_tabViewItem x)
     (Title x) (IconSource x).
Definition set_runtimeTabText (v : hstring) (x : t) : t :=
  mk (_rootPane x) (_activePane x) (_focused x) (_controlInitialized x)
     (_lastIconPath x) v (_inRename x) (_tabColor x) (_tabViewItem x)
     (Title x) (IconSource x).
Definition set_inRename (v : bool) (x : t) : t :=
  mk (_rootPane x) (_activePane x) (_focused x) (_controlInitialized x)
     (_lastIconPath x) (_runtimeTabText x) v (_tabColor x) (_tabViewItem x)
     (Title x) (IconSource x).
Definition set_tabColor (v : option Color.t) (x : t) : t :=
  mk (_rootPane x) (_activePane x) (_focused x) (_controlInitialized x)
     (_lastIconPath x) (_runtimeTabText x) (_inRename x) v (_tabViewItem x)
     (Title x) (IconSource x).
Definition set_tabViewItem (v : option TabViewItem.t) (x : t) : t :=
  mk (_rootPane x) (_activePane x) (_focused x) (_controlInitialized x)
     (_lastIconPath x) (_runtimeTabText x) (_inRename x) (_tabColor x) v
     (Title x) (IconSource x).
Definition set_Title (v : hstring) (x : t) : t :=
  mk (_rootPane x) (_activePane x) (_focused x) (_controlInitialized x)
     (_lastIconPath x) (_runtimeTabText x) (_inRename x) (_tabColor x)
     (_tabViewItem x) v (IconSource x).
Definition set_IconSource (v : option IconSourceValue) (x : t) : t :=
  mk (_rootPane x) (_activePane x) (_focused x) (_controlInitialized x)
     (_lastIconPath x) (_runtimeTabText x) (_inRename x) (_tabColor x)
     (_tabViewItem x) (Title x) v.

(** *** The monad of member functions *)

Definition M (A : Type) : Type := t * Env -> option (A * (t * Env)).

Definition ret {A} (a : A) : M A := fun s => Some (a, s).
Definition bind {A B} (m : M A) (k : A -> M B) : M B :=
  fun s => match m s with
           | Some (a, s') => k a s'
           | None => None
           end.

Declare Scope tab_scope.
Delimit Scope tab_scope with tab.
Notation "x <- m ;; k" := (bind m (fun x => k))
  (at level 100, m at next level, right associativity) : tab_scope.
Notation "m ;; k" := (bind m (fun _ => k))
  (at level 100, right associativity) : tab_scope.
Local Open Scope tab_scope.

Definition this : M t := fun s => Some (fst s, s).
Definition env : M Env := fun s => Some (snd s, s).
Definition modify (f : t -> t) : M unit := fun s => Some (tt, (f (fst s), snd s)).
Definition modify_env (f : Env -> Env) : M unit :=
  fun s => Some (tt, (fst s, f (snd s))).
(** A call through a null reference. *)
Definition null_deref {A} : M A := fun _ => None.

Definition emit (ev : Event) : M unit :=
  modify_env (fun e => with_trace (trace e ++ [ev]) e).
Definition post (task : Task) : M unit :=
  modify_env (fun e => with_pending (pending e ++ [task]) e).

(** The Tab and the environment a member function leaves behind. *)
Definition tab_after {A} (r : option (A * (t * Env))) : option t :=
  (fun x => fst (snd x)) <$> r.
Definition env_after {A} (r : option (A * (t * Env))) : option Env :=
  (fun x => snd (snd x)) <$> r.

Fixpoint for_each {A} (l : list A) (body : A -> M unit) : M unit :=
  match l with
  | [] => ret tt
  | x :: l' => body x ;; for_each l' body
  end.

(** The property setters [Title(value)] and [IconSource(value)].  They
    are declared in Tab.h, which is not part of this source: here a setter
    stores the value and the call is recorded.  What the presentation layer
    does when it is told of the new value is not modelled; in particular
    [TabViewItem.Header] records only whether the header holds the rename
    box, and is not changed by [put_Title], although the comments of
    [_UpdateTabHeader] and [_ConstructTabRenameBox] say that the header
    shows the title outside of a rename. *)
Definition put_Title (value : hstring) : M unit :=
  modify (set_Title value) ;; emit (TitleSet value).
Definition put_IconSource (value : IconSourceValue) : M unit :=
  modify (set_IconSource (Some value)) ;; emit (IconSourceSet value).

(** *** Construction *)

(** [Tab::Tab(profile, control)]: one active Leaf, which is both root and
    active pane; the other members take their default initial values. *)
Definition make (profile : GUID) (control : TermControl) (e : Env) : t * Env :=
  (mk (Pane.Leaf (nextPane e) control profile true) (nextPane e)
      false false "" "" false None None "" None,
   with_nextPane (S (nextPane e)) e).

(** *** Focus *)

(** [Tab::GetActiveTerminalControl]. *)
Definition GetActiveTerminalControl (x : t) : option TermControl :=
  Pane.GetTerminalControl (_activePane x) (_rootPane x).

(** [Tab::IsFocused]. *)
Definition IsFocused (x : t) : bool := _focused x.

(** [Tab::_Focus]. *)
Definition _Focus : M unit :=
  tab <- this ;;
  if negb (_controlInitialized tab) then ret tt
  else
    modify (set_focused true) ;;
    tab <- this ;;
    match GetActiveTerminalControl tab with
    | Some lastFocusedControl => emit (ControlFocus lastFocusedControl)
    | None => ret tt
    end.

(** [Tab::SetFocused]. *)
Definition SetFocused (focused : bool) : M unit :=
  modify (set_focused focused) ;;
  tab <- this ;;
  if _focused tab then _Focus else ret tt.

(** *** Icon, title, scrolling *)

(** [Tab::UpdateIcon], up to its [co_await]. *)
Definition UpdateIcon (iconPath : hstring) : M unit :=
  tab <- this ;;
  if decide (iconPath = _lastIconPath tab) then ret tt
  else
    modify (set_lastIconPath iconPath) ;;
    tab <- this ;;
    match GetActiveTerminalControl tab with
    | Some control => post UpdateIcon_resume
    | None => null_deref
    end.

(** [Tab::UpdateIcon], inside [if (auto tab{ weakThis.get() })]. *)
Definition UpdateIcon_body : M unit :=
  tab <- this ;;
  put_IconSource (ColoredIcon (_lastIconPath tab)).

(** [Tab::GetActiveTitle]. *)
Definition GetActiveTitle (x : t) (e : Env) : hstring :=
  if negb (bool_decide (_runtimeTabText x = ""))
  then _runtimeTabText x
  else match GetActiveTerminalControl x with
       | Some lastFocusedControl => Control.Title (controls e lastFocusedControl)
       | None => ""
       end.

(** [Tab::_UpdateTitle], up to its [co_await]. *)
Definition _UpdateTitle : M unit :=
  tab <- this ;;
  match GetActiveTerminalControl tab with
  | Some control => post UpdateTitle_resume
  | None => null_deref
  end.

(** [Tab::Scroll], up to its [co_await]. *)
Definition Scroll (delta : Z) : M unit :=
  tab <- this ;;
  match GetActiveTerminalControl tab with
  | Some control => post (Scroll_resume control delta)
  | None => null_deref
  end.

(** [Tab::Scroll] after its [co_await]: it uses the captured control
    only. *)
Definition Scroll_body (control : TermControl) (delta : Z) (e : Env) : Env :=
  let currentOffset := Control.ScrollOffset (controls e control) in
  ScrollViewport control (wrap_int (currentOffset + delta)) e.

(** *** The rename box and the header *)

Definition TextBox_Text (box : TextBoxRef) : M hstring :=
  e <- env ;;
  match textBoxes e !! box with
  | Some b => ret (TextBox.Text b)
  | None => null_deref
  end.

Definition TextBox_put_Text (box : TextBoxRef) (s : hstring) : M unit :=
  e <- env ;;
  match textBoxes e !! box with
  | Some b =>
      modify_env (with_textBoxes (<[box := TextBox.with_Text s b]> (textBoxes e)))
  | None => null_deref
  end.

(** [Tab::_ConstructTabRenameBox].  [TextBoxHandlersAttached] records
    the three registrations on the new box: the LostFocus, KeyUp and
    LayoutUpdated lambdas, which are [OnLostFocus], [OnKeyUp] and
    [OnLayoutUpdated] below. *)
Definition _ConstructTabRenameBox (tabText : hstring) : M unit :=
  tab <- this ;;
  match _tabViewItem tab with
  | None => null_deref
  | Some item =>
      match TabViewItem.Header item with
      | TabViewItem.TextBoxHeader _ => ret tt
      | TabViewItem.OtherHeader =>
          e <- env ;;
          let tabTextBox := fresh (dom (textBoxes e)) in
          modify_env
            (with_textBoxes
               (<[tabTextBox := TextBox.mk tabText 0 (4, 0, 4, 0)%Z (0, -8, 0, -8)%Z]>
                  (textBoxes e))) ;;
          emit (TextBoxHandlersAttached tabTextBox) ;;
          modify (set_tabViewItem
                    (Some (TabViewItem.with_Header
                             (TabViewItem.TextBoxHeader tabTextBox) item)))
      end
  end.

(** [Tab::_UpdateTabHeader]. *)
Definition _UpdateTabHeader : M unit :=
  tab <- this ;;
  e <- env ;;
  let tabText := GetActiveTitle tab e in
  if negb (_inRename tab) then put_Title tabText
  else _ConstructTabRenameBox tabText.

(** [Tab::_UpdateTitle], inside [if (auto tab{ weakThis.get() })]. *)
Definition UpdateTitle_body : M unit :=
  tab <- this ;;
  e <- env ;;
  put_Title (GetActiveTitle tab e) ;;
  _UpdateTabHeader.

(** [Tab::_OnRenameTabMenuItemClick]. *)
Definition _OnRenameTabMenuItemClick : M unit :=
  modify (set_inRename true) ;;
  _UpdateTabHeader.

(** The body of the LostFocus lambda, once [tab && textBox] holds. *)
Definition LostFocus_body (textBox : TextBoxRef) : M unit :=
  text <- TextBox_Text textBox ;;
  modify (set_runtimeTabText text) ;;
  modify (set_inRename false) ;;
  _UpdateTitle.

(** The body of the KeyUp lambda, once [tab && textBox] holds: the
    [switch] with its fall-through from Enter into Escape. *)
Definition KeyUp_body (textBox : TextBoxRef) (OriginalKey : VirtualKey) : M unit :=
  let escape : M unit :=
    emit KeyHandled ;;
    tab <- this ;;
    TextBox_put_Text textBox (_runtimeTabText tab) ;;
    modify (set_inRename false) ;;
    _UpdateTitle in
  match OriginalKey with
  | Enter =>
      text <- TextBox_Text textBox ;;
      modify (set_runtimeTabText text) ;;
      escape
  | Escape => escape
  | OtherKey _ => ret tt
  end.

(** *** Panes *)

(** [Tab::_AttachEventHandlersToControl]: the TitleChanged,
    FontSizeChanged and TerminalInitialized lambdas are registered on the
    control; they are [OnTitleChanged], [OnFontSizeChanged] and
    [OnTerminalInitialized] below. *)
Definition _AttachEventHandlersToControl (control : TermControl) : M unit :=
  emit (ControlHandlersAttached control).

(** [Tab::_AttachEventHandlersToPane]: the GotFocus lambda is registered
    on the pane. *)
Definition _AttachEventHandlersToPane (pane : PaneRef) : M unit :=
  emit (PaneHandlerAttached pane).

(** [Tab::_BindEventHandlers] and [Tab::Initialize]. *)
Definition _BindEventHandlers (control : TermControl) : M unit :=
  tab <- this ;;
  _AttachEventHandlersToPane (Pane.ref_of (_rootPane tab)) ;;
  _AttachEventHandlersToControl control.

Definition Initialize (control : TermControl) : M unit :=
  _BindEventHandlers control.

(** [Tab::_UpdateActivePane]. *)
Definition _UpdateActivePane (pane : PaneRef) : M unit :=
  modify (fun x => set_rootPane (Pane.ClearActive (_rootPane x)) x) ;;
  modify (set_activePane pane) ;;
  modify (fun x => set_rootPane (Pane.SetActive (_activePane x) (_rootPane x)) x) ;;
  _UpdateTitle ;;
  emit ActivePaneChanged.

(** [_activePane->Split(splitType, profile, control)]: the two new panes
    get the next two identities. *)
Definition activePane_Split (splitType : SplitState) (profile : GUID)
           (control : TermControl) : M (PaneRef * PaneRef) :=
  tab <- this ;;
  e <- env ;;
  let first := nextPane e in
  let second := S (nextPane e) in
  match Pane.Split (_activePane tab) splitType profile control first second
                   (_rootPane tab) with
  | Some root' =>
      modify (set_rootPane root') ;;
      modify_env (with_nextPane (S (S (nextPane e)))) ;;
      ret (first, second)
  | None => null_deref
  end.

(** [Tab::SplitPane]. *)
Definition SplitPane (splitType : SplitState) (profile : GUID)
           (control : TermControl) : M unit :=
  fs <- activePane_Split splitType profile control ;;
  let first := fst fs in
  let second := snd fs in
  modify (set_activePane first) ;;
  _AttachEventHandlersToControl control ;;
  _AttachEventHandlersToPane first ;;
  _AttachEventHandlersToPane second ;;
  _UpdateActivePane second.

(** *** Colour *)

(** [Tab::GetTabColor]. *)
Definition GetTabColor (x : t) : option Color.t := _tabColor x.

(** [tab->_tabViewItem.Resources().Insert(box_value(key), brush)]. *)
Definition Resources_Insert (key : hstring) (brush : SolidColorBrush) : M unit :=
  tab <- this ;;
  match _tabViewItem tab with
  | Some item =>
      modify (set_tabViewItem
                (Some (TabViewItem.with_Resources
                         (<[key := brush]> (TabViewItem.Resources item)) item)))
  | None => null_deref
  end.

(** [if (Resources().HasKey(key)) { Resources().Remove(key); }]. *)
Definition Resources_Remove_if_HasKey (key : hstring) : M unit :=
  tab <- this ;;
  match _tabViewItem tab with
  | Some item =>
      if bool_decide (is_Some (TabViewItem.Resources item !! key))
      then modify (set_tabViewItem
                     (Some (TabViewItem.with_Resources
                              (delete key (TabViewItem.Resources item)) item)))
      else ret tt
  | None => null_deref
  end.

(** [VisualStateManager::GoToState(_tabViewItem, stateName, true)]. *)
Definition VisualStateManager_GoToState (stateName : hstring) : M unit :=
  tab <- this ;;
  match _tabViewItem tab with
  | Some _ => emit (GoToState stateName)
  | None => null_deref
  end.

(** [Tab::_RefreshVisualState]. *)
Definition _RefreshVisualState : M unit :=
  tab <- this ;;
  if _focused tab
  then VisualStateManager_GoToState "Normal" ;;
       VisualStateManager_GoToState "Selected"
  else VisualStateManager_GoToState "Selected" ;;
       VisualStateManager_GoToState "Normal".

(** [Tab::_SetTabColor], up to [RunAsync]. *)
Definition _SetTabColor (color : Color.t) : M unit :=
  tab <- this ;;
  match _tabViewItem tab with
  | Some _ => post (SetTabColor_dispatched color)
  | None => null_deref
  end.

(** The lambda of [Tab::_SetTabColor], once [ptrTab] is not null. *)
Definition SetTabColor_body `{ColorHelper} (color : Color.t) : M unit :=
  let fontBrush :=
    if IsBrightColor color then Brush Color.Black else Brush Color.White in
  let hoverTabBrush := Brush (GetAccentColor color) in
  let selectedTabBrush := Brush color in
  let deselectedTabColor := Color.with_A 64 color in
  let deselectedTabBrush := Brush deselectedTabColor in
  Resources_Insert "TabViewItemHeaderBackgroundSelected" selectedTabBrush ;;
  Resources_Insert "TabViewItemHeaderBackground" deselectedTabBrush ;;
  Resources_Insert "TabViewItemHeaderBackgroundPointerOver" hoverTabBrush ;;
  Resources_Insert "TabViewItemHeaderBackgroundPressed" selectedTabBrush ;;
  Resources_Insert "TabViewItemHeaderForeground" fontBrush ;;
  Resources_Insert "TabViewItemHeaderForegroundSelected" fontBrush ;;
  Resources_Insert "TabViewItemHeaderForegroundPointerOver" fontBrush ;;
  Resources_Insert "TabViewItemHeaderForegroundPressed" fontBrush ;;
  Resources_Insert "TabViewButtonForegroundActiveTab" fontBrush ;;
  _RefreshVisualState ;;
  modify (set_tabColor (Some color)) ;;
  emit (ColorSelected color).

(** The [keys] array of [Tab::_ResetTabColor]. *)
Definition keys : list hstring :=
  [ "TabViewItemHeaderBackground";
    "TabViewItemHeaderBackgroundSelected";
    "TabViewItemHeaderBackgroundPointerOver";
    "TabViewItemHeaderForeground";
    "TabViewItemHeaderForegroundSelected";
    "TabViewItemHeaderForegroundPointerOver";
    "TabViewItemHeaderBackgroundPressed";
    "TabViewItemHeaderForegroundPressed";
    "TabViewButtonForegroundActiveTab" ].

(** [Tab::_ResetTabColor].  It runs as a member function, so the Tab
    exists and [weakThis.get()] is not null. *)
Definition _ResetTabColor : M unit :=
  for_each keys Resources_Remove_if_HasKey ;;
  _RefreshVisualState ;;
  modify (set_tabColor None) ;;
  emit ColorCleared.

(** [Tab::Shutdown].  [Pane::Shutdown] is not part of this source: the
    call on the root pane is recorded, and what it does to the sessions is
    left out. *)
Definition Shutdown : M unit :=
  _ResetTabColor ;;
  emit RootPaneShutdown.

(** [Tab::_CreateContextMenu]: it registers the ColorSelected and the
    ColorCleared lambda on the colour picker, one more pair at each call,
    and changes nothing of the Tab.  The registrations belong to the
    picker and are not recorded: after [n] calls one event of the picker
    runs [n] lambdas, and each of these runs is one [OnColorSelected] or
    one [OnColorCleared] below. *)
Definition _CreateContextMenu : M unit :=
  ret tt.

(** [Tab::_OnTabItemLoaded]; [sender] is the result of
    [sender.try_as<TabViewItem>()]. *)
Definition _OnTabItemLoaded (sender : option TabViewItem.t) : M unit :=
  match sender with
  | Some temp => modify (set_tabViewItem (Some temp)) ;; _CreateContextMenu
  | None => ret tt
  end.

(** *** The dispatcher and the event handlers *)

(** The Tab, if it still exists ([weakThis.get()]), and everything
    around it. *)
Record World := mkWorld { live : option t; outside : Env }.

(** [if (auto tab{ weakThis.get() }) { body }]. *)
Definition if_alive (body : M unit) (w : World) : option World :=
  match live w with
  | Some tab =>
      match body (tab, outside w) with
      | Some (_, (tab', e')) => Some (mkWorld (Some tab') e')
      | None => None
      end
  | None => Some w
  end.

(** The Tab is released by its last owner. *)
Definition destroy (w : World) : World := mkWorld None (outside w).

(** A member function called on the Tab by one of its owners. *)
Definition call (m : M unit) (w : World) : option World :=
  match live w with
  | Some tab =>
      match m (tab, outside w) with
      | Some (_, (tab', e')) => Some (mkWorld (Some tab') e')
      | None => None
      end
  | None => None
  end.

(** What the dispatcher does when it runs a task. *)
Definition run `{ColorHelper} (task : Task) (w : World) : option World :=
  match task with
  | UpdateIcon_resume => if_alive UpdateIcon_body w
  | UpdateTitle_resume => if_alive UpdateTitle_body w
  | Scroll_resume control delta =>
      Some (mkWorld (live w) (Scroll_body control delta (outside w)))
  | SetTabColor_dispatched color => if_alive (SetTabColor_body color) w
  end.

(** The dispatcher takes the oldest task off the queue and runs it. *)
Definition dispatch `{ColorHelper} (w : World) : option World :=
  match pending (outside w) with
  | [] => Some w
  | task :: rest => run task (mkWorld (live w) (with_pending rest (outside w)))
  end.

(** The TitleChanged lambda of [_AttachEventHandlersToControl]. *)
Definition OnTitleChanged : World -> option World :=
  if_alive _UpdateTitle.

(** The TerminalInitialized lambda of [_AttachEventHandlersToControl]. *)
Definition OnTerminalInitialized : World -> option World :=
  if_alive (modify (set_controlInitialized true) ;; _Focus).

(** The GotFocus lambda of [_AttachEventHandlersToPane]. *)
Definition OnGotFocus (sender : PaneRef) : World -> option World :=
  if_alive (tab <- this ;;
            if negb (bool_decide (sender = _activePane tab))
            then _UpdateActivePane sender
            else ret tt).

(** The LostFocus lambda of [_ConstructTabRenameBox]; [sender] is the
    result of [sender.try_as<Controls::TextBox>()]. *)
Definition OnLostFocus (sender : option TextBoxRef) (w : World) : option World :=
  match sender with
  | Some textBox => if_alive (LostFocus_body textBox) w
  | None => Some w
  end.

(** The KeyUp lambda of [_ConstructTabRenameBox]. *)
Definition OnKeyUp (sender : option TextBoxRef) (OriginalKey : VirtualKey)
           (w : World) : option World :=
  match sender with
  | Some textBox => if_alive (KeyUp_body textBox OriginalKey) w
  | None => Some w
  end.

(** The ColorSelected and ColorCleared lambdas of [_CreateContextMenu]. *)
Definition OnColorSelected (newTabColor : Color.t) : World -> option World :=
  if_alive (_SetTabColor newTabColor).
Definition OnColorCleared : World -> option World :=
  if_alive _ResetTabColor.

(** The three lambdas that capture [this] and not [weakThis].  They do not
    test whether the Tab still exists: run after the Tab is gone they read
    its members through a dangling pointer, which has no defined result
    (like a member function, [call]). *)

(** The FontSizeChanged lambda of [_AttachEventHandlersToControl].
    [Pane::Relayout] is not part of this source: the call is recorded. *)
Definition OnFontSizeChanged (isInitialChange : bool) (w : World) : option World :=
  if isInitialChange then call (emit RootPaneRelayout) w else Some w.

(** The LayoutUpdated lambda of [_ConstructTabRenameBox]: it takes the
    text box from the Header of [_tabViewItem]. *)
Definition LayoutUpdated_body : M unit :=
  tab <- this ;;
  match _tabViewItem tab with
  | None => null_deref
  | Some item =>
      match TabViewItem.Header item with
      | TabViewItem.TextBoxHeader textBox =>
          emit (TextBoxSelectAll textBox) ;;
          emit (TextBoxFocus textBox)
      | TabViewItem.OtherHeader => ret tt
      end ;;
      emit LayoutUpdatedRevoked
  end.

Definition OnLayoutUpdated : World -> option World :=
  call LayoutUpdated_body.

(** The Closed lambda that the constructor registers on the root pane. *)
Definition OnRootPaneClosed : World -> option World :=
  call (emit Closed).

End Tab.

(** ** The display title in the words of the specification *)

(** "returns runtimeTitleOverride if set, else the active leaf's session
    title, else an empty string if no session exists". *)
Definition GetDisplayTitle_spec (runtimeTitleOverride sessionTitle : option hstring)
  : hstring :=
  match runtimeTitleOverride, sessionTitle with
  | Some override, _ => override
  | None, Some title => title
  | None, None => ""
  end.

(** The override is the runtime tab text, and it is set when that text is
    not empty. *)
Definition runtimeTitleOverride (x : Tab.t) : option hstring :=
  if decide (Tab._runtimeTabText x = "") then None else Some (Tab._runtimeTabText x).

(** The title of the active leaf's session, if the active pane has one. *)
Definition activeSessionTitle (x : Tab.t) (e : Env) : option hstring :=
  (fun c => Control.Title (controls e c)) <$> Tab.GetActiveTerminalControl x.

(** The user types into a text box. *)
Definition user_edits (box : TextBoxRef) (s : hstring) (w : Tab.World) : Tab.World :=
  Tab.mkWorld (Tab.live w)
    (with_textBoxes (alter (TextBox.with_Text s) box (textBoxes (Tab.outside w)))
                    (Tab.outside w)).

(** ** Auxiliary notions for the colour code *)

(** Two Tabs that differ at most in their TabViewItem. *)
Definition same_but_item (x y : Tab.t) : Prop :=
  Tab.set_tabViewItem None x = Tab.set_tabViewItem None y.

(** The two state changes [_RefreshVisualState] asks for, in order. *)
Definition refresh_states (focused : bool) : list Event :=
  if focused then [GoToState "Normal"; GoToState "Selected"]
  else [GoToState "Selected"; GoToState "Normal"].

(** ** Further operations, and the life of a Tab as a sequence of actions *)

(** Modelled from the spec: [Pane::GetLeafPaneCount], the "recursive count
    of Leaf nodes". *)
Fixpoint GetLeafPaneCount (p : Pane.t) : nat :=
  match p with
  | Pane.Leaf _ _ _ _ => 1
  | Pane.SplitNode _ _ _ a b => GetLeafPaneCount a + GetLeafPaneCount b
  end.

(** [Tab::_GetLeafPaneCount]. *)
Definition _GetLeafPaneCount (x : Tab.t) : nat :=
  GetLeafPaneCount (Tab._rootPane x).

(** The sessions hosted by the leaves, from first to last. *)
Fixpoint leaf_controls (p : Pane.t) : list TermControl :=
  match p with
  | Pane.Leaf _ c _ _ => [c]
  | Pane.SplitNode _ _ _ a b => leaf_controls a ++ leaf_controls b
  end.

(** The session behind a control changes its title. *)
Definition session_retitles (control : TermControl) (title : hstring)
           (w : Tab.World) : Tab.World :=
  Tab.mkWorld (Tab.live w)
    (with_controls
       (fun c => if decide (c = control)
                 then Control.mk title (Control.ScrollOffset (controls (Tab.outside w) c))
                 else controls (Tab.outside w) c)
       (Tab.outside w)).

(** What happens to a Tab, one step at a time: its owner calls a member
    function, an event reaches one of the lambdas the Tab has registered
    (one action is one run of one lambda), the dispatcher runs the oldest
    queued task, the user or a session acts on the outside, or the Tab is
    released.

    Not among the actions are the member functions that hand their work to
    a pane or to the colour picker: [ClosePane] and
    [_OnCloseTabMenuItemClick] ([Pane::Close]), [NavigateFocus],
    [ResizePane], [ResizeContent], [UpdateSettings] and
    [_OnColorMenuItemClick].  What these do to the tree of panes and to the
    focus is decided in Pane.cpp, which is not part of this source.  The
    sequences of actions below are therefore the lives of a Tab in which no
    pane is closed and focus is not moved from inside the tree of panes. *)
Inductive Action :=
| Call_SetFocused (focused : bool)
| Call_UpdateIcon (iconPath : hstring)
| Call_Scroll (delta : Z)
| Call_SplitPane (splitType : SplitState) (profile : GUID) (control : TermControl)
| Call_Initialize (control : TermControl)
| Call_Shutdown
| Ev_TabItemLoaded (sender : option TabViewItem.t)
| Ev_RenameTabMenuItemClick
| Ev_TitleChanged
| Ev_TerminalInitialized
| Ev_GotFocus (sender : PaneRef)
| Ev_LostFocus (sender : option TextBoxRef)
| Ev_KeyUp (sender : option TextBoxRef) (OriginalKey : VirtualKey)
| Ev_ColorSelected (newTabColor : Color.t)
| Ev_ColorCleared
| Ev_FontSizeChanged (isInitialChange : bool)
| Ev_LayoutUpdated
| Ev_RootPaneClosed
| Dispatch
| User_edits (box : TextBoxRef) (text : hstring)
| Session_retitles (control : TermControl) (title : hstring)
| Destroy.

Definition perform `{ColorHelper} (a : Action) (w : Tab.World) : option Tab.World :=
  match a with
  | Call_SetFocused focused => Tab.call (Tab.SetFocused focused) w
  | Call_UpdateIcon iconPath => Tab.call (Tab.UpdateIcon iconPath) w
  | Call_Scroll delta => Tab.call (Tab.Scroll delta) w
  | Call_SplitPane splitType profile control =>
      Tab.call (Tab.SplitPane splitType profile control) w
  | Call_Initialize control => Tab.call (Tab.Initialize control) w
  | Call_Shutdown => Tab.call Tab.Shutdown w
  | Ev_TabItemLoaded sender => Tab.call (Tab._OnTabItemLoaded sender) w
  | Ev_RenameTabMenuItemClick => Tab.call Tab._OnRenameTabMenuItemClick w
  | Ev_TitleChanged => Tab.OnTitleChanged w
  | Ev_TerminalInitialized => Tab.OnTerminalInitialized w
  | Ev_GotFocus sender => Tab.OnGotFocus sender w
  | Ev_LostFocus sender => Tab.OnLostFocus sender w
  | Ev_KeyUp sender OriginalKey => Tab.OnKeyUp sender OriginalKey w
  | Ev_ColorSelected newTabColor => Tab.OnColorSelected newTabColor w
  | Ev_ColorCleared => Tab.OnColorCleared w
  | Ev_FontSizeChanged isInitialChange => Tab.OnFontSizeChanged isInitialChange w
  | Ev_LayoutUpdated => Tab.OnLayoutUpdated w
  | Ev_RootPaneClosed => Tab.OnRootPaneClosed w
  | Dispatch => Tab.dispatch w
  | User_edits box text => Some (user_edits box text w)
  | Session_retitles control title => Some (session_retitles control title w)
  | Destroy => Some (Tab.destroy w)
  end.

Fixpoint perform_all `{ColorHelper} (l : list Action) (w : Tab.World)
  : option Tab.World :=
  match l with
  | [] => Some w
  | a :: l' =>
      match perform a w with
      | Some w' => perform_all l' w'
      | None => None
      end
  end.

(** The resources after the nine [Insert] calls of [_SetTabColor]. *)
Definition themed_resources `{ColorHelper} (color : Color.t)
           (res : gmap hstring SolidColorBrush) : gmap hstring SolidColorBrush :=
  let fontBrush :=
    if IsBrightColor color then Brush Color.Black else Brush Color.White in
  <["TabViewButtonForegroundActiveTab" := fontBrush]>
  (<["TabViewItemHeaderForegroundPressed" := fontBrush]>
  (<["TabViewItemHeaderForegroundPointerOver" := fontBrush]>
  (<["TabViewItemHeaderForegroundSelected" := fontBrush]>
  (<["TabViewItemHeaderForeground" := fontBrush]>
  (<["TabViewItemHeaderBackgroundPressed" := Brush color]>
  (<["TabViewItemHeaderBackgroundPointerOver" := Brush (GetAccentColor color)]>
  (<["TabViewItemHeaderBackground" := Brush (Color.with_A 64 color)]>
  (<["TabViewItemHeaderBackgroundSelected" := Brush color]> res)))))))).

(** The resources after the loop of [_ResetTabColor] over [l]. *)
Fixpoint removed_keys (l : list hstring) (res : gmap hstring SolidColorBrush)
  : gmap hstring SolidColorBrush :=
  match l with
  | [] => res
  | key :: l' => removed_keys l' (delete key res)
  end.


(** The actions that commit the text of the rename box. *)
Definition commits_rename (a : Action) : bool :=
  match a with
  | Ev_LostFocus (Some _) => true
  | Ev_KeyUp (Some _) Enter => true
  | _ => false
  end.

(** The state of the panes that the Tab relies on: the active pane is a
    leaf, it is the one leaf flagged active, and every identity in the tree
    is older than the next new one. *)
Definition pane_ok (w : Tab.World) : Prop :=
  forall tab, Tab.live w = Some tab ->
    is_Some (Tab.GetActiveTerminalControl tab) /\
    Pane.active_leaves (Tab._rootPane tab) = [Tab._activePane tab] /\
    (forall r, r ∈ Pane.refs (Tab._rootPane tab) -> r < nextPane (Tab.outside w)).

(** The actions that deliver TerminalInitialized. *)
Definition is_TerminalInitialized (a : Action) : bool :=
  match a with Ev_TerminalInitialized => true | _ => false end.

(** ** Sample states *)

(** A brightness test and an accent shade to run the colour code with. *)
Definition sample_ColorHelper : ColorHelper := {|
  IsBrightColor c :=
    (128 <? (Color.R c * 299 + Color.G c * 587 + Color.B c * 114) / 1000)%Z;
  GetAccentColor c := Color.mk (Color.A c) (Color.R c / 2) (Color.G c / 2) (Color.B c / 2)
|}.

(** Control 7 is titled "pwsh", every other control "cmd"; no text box, no
    pane yet, nothing pending. *)
Definition sample_env : Env :=
  mkEnv (fun c => Control.mk (if decide (c = 7) then "pwsh" else "cmd") 0)
        ∅ 0 [] [].

(** A new Tab on control 7 with profile 1: its only pane has identity 0. *)
Definition sample_tab : Tab.t := fst (Tab.make 1 7 sample_env).
Definition sample_env1 : Env := snd (Tab.make 1 7 sample_env).
Definition sample_world : Tab.World := Tab.mkWorld (Some sample_tab) sample_env1.

(** The new Tab after the TerminalInitialized of its control 7. *)
Definition sample_initialized : Tab.World :=
  default sample_world (Tab.OnTerminalInitialized sample_world).
Definition sample_initialized_tab : Tab.t :=
  default sample_tab (Tab.live sample_initialized).

(** The same Tab once its TabViewItem is loaded. *)
Definition sample_loaded : Tab.World :=
  default sample_world
    (Tab.call (Tab._OnTabItemLoaded (Some (TabViewItem.mk ∅ TabViewItem.OtherHeader)))
              sample_world).

(** The loaded Tab after "rename" was chosen from its menu: the header
    holds text box 0, seeded with the title "pwsh". *)
Definition sample_renaming : Tab.World :=
  default sample_loaded (Tab.call Tab._OnRenameTabMenuItemClick sample_loaded).

(** ... and after the user typed "Build" into the box, and after the user
    emptied it. *)
Definition sample_editing : Tab.World := user_edits 0 "Build" sample_renaming.
Definition sample_emptied : Tab.World := user_edits 0 "" sample_renaming.
Definition sample_renaming_tab : Tab.t := default sample_tab (Tab.live sample_renaming).

(** The loaded Tab of [sample_loaded]. *)
Definition sample_loaded_tab : Tab.t := default sample_tab (Tab.live sample_loaded).

(** The new Tab after its pane was split for control 8: leaf 1 holds
    control 7, leaf 2 holds control 8 and is active; the dispatcher queue
    has been worked off. *)
Definition sample_split : Tab.t * Env :=
  default (sample_tab, sample_env1)
          (snd <$> Tab.SplitPane Vertical 2 8 (sample_tab, sample_env1)).
Definition sample_split_tab : Tab.t := fst sample_split.
Definition sample_split_env : Env := with_pending [] (snd sample_split).

Definition darkBlue : Color.t := Color.mk 255 0 0 139.

(** A busy stretch in the life of the new Tab, and what it leads to. *)
Definition sample_actions : list Action :=
  [Call_Initialize 7; Call_SetFocused true; Call_SplitPane Vertical 2 8;
   Dispatch; Ev_GotFocus 1; Call_Scroll 3; Call_UpdateIcon "a.png";
   Ev_TabItemLoaded (Some (TabViewItem.mk ∅ TabViewItem.OtherHeader));
   Ev_ColorSelected darkBlue; Dispatch; Dispatch; Dispatch; Dispatch;
   Session_retitles 7 "vim"; Ev_TitleChanged; Dispatch; Call_SetFocused false].
Definition sample_after_actions : Tab.World :=
  default sample_world (@perform_all sample_ColorHelper sample_actions sample_world).

Definition sample_destroyed : Tab.World :=
  default sample_world
    (@perform_all sample_ColorHelper [Call_Scroll 3; Ev_TitleChanged; Destroy]
                  sample_world).

(** The Tab of [sample_editing] after the confirm key and the title
    refresh: it is now named "Build".  Then the cancel key and the busy
    stretch above. *)
Definition sample_named : Tab.World :=
  default sample_world
    (@perform_all sample_ColorHelper [Ev_KeyUp (Some 0) Enter; Dispatch] sample_editing).
Definition sample_later_actions : list Action :=
  [Ev_KeyUp (Some 0) Escape; Dispatch] ++ sample_actions.
Definition sample_named_later : Tab.World :=
  default sample_world
    (@perform_all sample_ColorHelper sample_later_actions sample_named).

(** * Properties *)

(** ** The pane tree *)

Section PaneFacts.

Implicit Types (p n : Pane.t) (r x : PaneRef).

Lemma ref_of_find r p n : Pane.find r p = Some n -> Pane.ref_of n = r.
Proof.
  induction p as [r' c g a | r' o q a IHa b IHb]; simpl.
  - case_decide; [intros [= <-]; done | discriminate].
  - case_decide; [intros [= <-]; done |].
    destruct (Pane.find r a) eqn:Ha; [intros [= <-]; auto | auto].
Qed.

Lemma find_fresh x p : x ∉ Pane.refs p -> Pane.find x p = None.
Proof.
  induction p as [r' c g a | r' o q a IHa b IHb]; simpl; intros Hx.
  - case_decide; [set_solver | done].
  - case_decide; [set_solver |].
    rewrite IHa; [apply IHb |]; set_solver.
Qed.

Lemma find_elem_of r p n : Pane.find r p = Some n -> r ∈ Pane.refs p.
Proof.
  intros H. destruct (decide (r ∈ Pane.refs p)) as [|Hn]; [done |].
  rewrite (find_fresh _ _ Hn) in H. discriminate.
Qed.

Lemma find_ClearActive r p :
  Pane.find r (Pane.ClearActive p) = Pane.ClearActive <$> Pane.find r p.
Proof.
  induction p as [r' c g a | r' o q a IHa b IHb]; simpl.
  - case_decide; done.
  - case_decide; [done |].
    rewrite IHa. destruct (Pane.find r a); simpl; [done | apply IHb].
Qed.

Lemma GetTerminalControl_ClearActive r p :
  Pane.GetTerminalControl r (Pane.ClearActive p) = Pane.GetTerminalControl r p.
Proof.
  unfold Pane.GetTerminalControl. rewrite find_ClearActive.
  destruct (Pane.find r p) as [[]|]; done.
Qed.

Lemma active_leaves_ClearActive p : Pane.active_leaves (Pane.ClearActive p) = [].
Proof.
  induction p as [r' c g a | r' o q a IHa b IHb]; simpl; [done |].
  by rewrite IHa, IHb.
Qed.

(** Replacing the node that [r] denotes puts [n] where [r] is looked
    up. *)
Lemma find_replace_same r n p :
  is_Some (Pane.find r p) -> Pane.ref_of n = r ->
  Pane.find r (Pane.replace r n p) = Some n.
Proof.
  intros Hf Hn.
  induction p as [r' c g a | r' o q a IHa b IHb]; simpl in *.
  - case_decide; [| by destruct Hf].
    destruct n; simpl in *; case_decide; done.
  - case_decide as Hr.
    + destruct n; simpl in *; case_decide; done.
    + destruct (Pane.find r a) eqn:Ha; simpl; rewrite decide_False by done.
      * rewrite IHa; [done | by eexists].
      * rewrite Ha. auto.
Qed.

(** A fresh identity [x] is found inside the new node or not at all. *)
Lemma find_replace_fresh r x n p :
  is_Some (Pane.find r p) -> x ∉ Pane.refs p ->
  Pane.find x (Pane.replace r n p) = Pane.find x n.
Proof.
  intros Hf Hx.
  induction p as [r' c g a | r' o q a IHa b IHb]; simpl in *.
  - case_decide; [done | by destruct Hf].
  - case_decide as Hr; [done |].
    assert (r' ≠ x) by set_solver.
    assert (x ∉ Pane.refs a) by set_solver.
    assert (x ∉ Pane.refs b) by set_solver.
    destruct (Pane.find r a) eqn:Ha; simpl; rewrite decide_False by done.
    + rewrite IHa by (done || by eexists).
      destruct (Pane.find x n) eqn:Hxn; [done |]. by apply find_fresh.
    + rewrite (find_fresh x a) by done. auto.
Qed.

(** Setting the flag of the leaf [r] in a tree without active leaves
    leaves exactly that leaf active. *)
Lemma active_leaves_replace r r' c g a p :
  Pane.find r p = Some (Pane.Leaf r' c g a) ->
  Pane.active_leaves p = [] ->
  Pane.active_leaves (Pane.replace r (Pane.Leaf r' c g true) p) = [r'].
Proof.
  induction p as [r0 c0 g0 a0 | r0 o q pa IHa pb IHb]; simpl.
  - case_decide; [done | discriminate].
  - case_decide; [discriminate |].
    intros Hf Hnil. apply app_eq_nil in Hnil as [Hna Hnb].
    destruct (Pane.find r pa) eqn:Ha; simpl.
    + rewrite IHa, Hnb; [done | congruence | done].
    + rewrite IHb, Hna; done.
Qed.

End PaneFacts.

Section PaneViews.

Implicit Types (p n : Pane.t) (r x : PaneRef).

Lemma view_SplitNode x r o q a b :
  Pane.view x (Pane.SplitNode r o q a b) =
  if decide (r = x) then Some None
  else match Pane.view x a with
       | Some v => Some v
       | None => Pane.view x b
       end.
Proof.
  unfold Pane.view; simpl. case_decide; [done |].
  destruct (Pane.find x a) as [[]|]; done.
Qed.

Lemma GetTerminalControl_view x p :
  Pane.GetTerminalControl x p = default None (Pane.view x p).
Proof.
  unfold Pane.GetTerminalControl, Pane.view.
  destruct (Pane.find x p) as [[]|]; done.
Qed.

(** Changing only the flag of the leaf [r] changes no lookup's view. *)
Lemma view_replace_flag r r' c g a a' x p :
  Pane.find r p = Some (Pane.Leaf r' c g a) ->
  Pane.view x (Pane.replace r (Pane.Leaf r' c g a') p) = Pane.view x p.
Proof.
  induction p as [r0 c0 g0 a0 | r0 o q pa IHa pb IHb]; simpl.
  - case_decide; [| discriminate]. intros [= -> -> -> ->].
    unfold Pane.view; simpl. case_decide; done.
  - case_decide; [discriminate |]. intros Hf.
    destruct (Pane.find r pa) eqn:Ha.
    + rewrite !view_SplitNode, IHa by congruence. done.
    + rewrite !view_SplitNode, IHb by done. done.
Qed.

Lemma GetTerminalControl_SetActive r x p :
  Pane.GetTerminalControl x (Pane.SetActive r p) = Pane.GetTerminalControl x p.
Proof.
  unfold Pane.SetActive.
  destruct (Pane.find r p) as [[r' c g a | ]|] eqn:Hf; try done.
  rewrite !GetTerminalControl_view. by erewrite view_replace_flag.
Qed.

(** After [ClearActive] and [SetActive r] the leaf [r], and no other, is
    active. *)
Lemma active_leaves_SetActive_ClearActive r c p :
  Pane.GetTerminalControl r p = Some c ->
  Pane.active_leaves (Pane.SetActive r (Pane.ClearActive p)) = [r].
Proof.
  unfold Pane.GetTerminalControl, Pane.SetActive. intros Hc.
  rewrite find_ClearActive.
  destruct (Pane.find r p) as [[r' c' g a | ]|] eqn:Hf; try discriminate.
  simpl. pose proof (ref_of_find _ _ _ Hf) as Hr; simpl in Hr; subst r'.
  apply active_leaves_replace with (a := false).
  - by rewrite find_ClearActive, Hf.
  - apply active_leaves_ClearActive.
Qed.

(** The two new leaves of a split are found under their identities. *)
Lemma Split_views r st profile control first second p p' c :
  Pane.GetTerminalControl r p = Some c ->
  first ∉ Pane.refs p -> second ∉ Pane.refs p -> first ≠ second ->
  Pane.Split r st profile control first second p = Some p' ->
  Pane.GetTerminalControl first p' = Some c /\
  Pane.GetTerminalControl second p' = Some control.
Proof.
  unfold Pane.GetTerminalControl at 1, Pane.Split. intros Hc H1 H2 Hne.
  destruct (Pane.find r p) as [[r' c' g a | ]|] eqn:Hf; try discriminate.
  injection Hc as ->. intros [= <-].
  pose proof (ref_of_find _ _ _ Hf) as Hr; simpl in Hr; subst r'.
  assert (r ≠ first) by (intros ->; apply H1; by eapply find_elem_of).
  assert (r ≠ second) by (intros ->; apply H2; by eapply find_elem_of).
  unfold Pane.GetTerminalControl.
  rewrite !find_replace_fresh by (done || by eexists). simpl.
  split; repeat case_decide; done || congruence.
Qed.

Lemma Split_total r st profile control first second p c :
  Pane.GetTerminalControl r p = Some c ->
  is_Some (Pane.Split r st profile control first second p).
Proof.
  unfold Pane.GetTerminalControl, Pane.Split.
  destruct (Pane.find r p) as [[]|]; try discriminate. by eexists.
Qed.

(** No operation invents identities: those of the tree after [replace]
    come from the tree or from the new node. *)
Lemma refs_replace r n p x :
  x ∈ Pane.refs (Pane.replace r n p) -> x ∈ Pane.refs p \/ x ∈ Pane.refs n.
Proof.
  induction p as [r0 c0 g0 a0 | r0 o q pa IHa pb IHb]; simpl.
  - case_decide; auto.
  - case_decide; [auto |].
    destruct (Pane.find r pa); simpl; rewrite !elem_of_cons, !elem_of_app;
      intros [-> | [Hx | Hx]]; auto.
    + apply IHa in Hx as [Hx | Hx]; auto.
    + apply IHb in Hx as [Hx | Hx]; auto.
Qed.

Lemma refs_ClearActive p : Pane.refs (Pane.ClearActive p) = Pane.refs p.
Proof.
  induction p as [r0 c0 g0 a0 | r0 o q pa IHa pb IHb]; simpl; [done |].
  by rewrite IHa, IHb.
Qed.

Lemma refs_SetActive r p x :
  x ∈ Pane.refs (Pane.SetActive r p) -> x ∈ Pane.refs p.
Proof.
  unfold Pane.SetActive.
  destruct (Pane.find r p) as [[r' c g a | ]|] eqn:Hf; try done.
  intros Hx. apply refs_replace in Hx as [Hx | Hx]; [done |].
  simpl in Hx. apply list_elem_of_singleton in Hx as ->.
  pose proof (ref_of_find _ _ _ Hf) as Hr; simpl in Hr; subst r'.
  by eapply find_elem_of.
Qed.

Lemma refs_Split r st profile control first second p p' x :
  Pane.Split r st profile control first second p = Some p' ->
  x ∈ Pane.refs p' -> x ∈ Pane.refs p \/ x = first \/ x = second.
Proof.
  unfold Pane.Split.
  destruct (Pane.find r p) as [[r' c g a | ]|] eqn:Hf; try done.
  intros [= <-] Hx. apply refs_replace in Hx as [Hx | Hx]; [auto |].
  simpl in Hx. rewrite !elem_of_cons in Hx.
  destruct Hx as [-> | [-> | [-> | Hx]]]; auto.
  - left. pose proof (ref_of_find _ _ _ Hf) as Hr; simpl in Hr; subst.
    by eapply find_elem_of.
  - by apply elem_of_nil in Hx.
Qed.

End PaneViews.

(** ** The Tab *)

(** The monad's primitives, unfolded on demand. *)
Create HintDb tab_monad.
#[global] Hint Unfold Tab.put_Title Tab.put_IconSource Tab.emit Tab.post
  Tab.modify_env Tab.modify Tab.this Tab.env Tab.ret Tab.bind Tab.null_deref
  : tab_monad.

Ltac tab_unfold := repeat autounfold with tab_monad in *.

Section TabFacts.

Lemma count_app f (l1 l2 : list Event) :
  count f (l1 ++ l2) = count f l1 + count f l2.
Proof. induction l1 as [|ev l1 IH]; simpl; [done | rewrite IH; lia]. Qed.

(** [_UpdateActivePane] in one step. *)
Lemma _UpdateActivePane_eq pane tab e :
  Tab._UpdateActivePane pane (tab, e) =
  let root' := Pane.SetActive pane (Pane.ClearActive (Tab._rootPane tab)) in
  match Pane.GetTerminalControl pane (Tab._rootPane tab) with
  | Some _ =>
      Some (tt, (Tab.set_rootPane root' (Tab.set_activePane pane tab),
                 with_trace (trace e ++ [ActivePaneChanged])
                   (with_pending (pending e ++ [UpdateTitle_resume]) e)))
  | None => None
  end.
Proof.
  unfold Tab._UpdateActivePane, Tab._UpdateTitle, Tab.GetActiveTerminalControl.
  tab_unfold; simpl.
  rewrite GetTerminalControl_SetActive, GetTerminalControl_ClearActive.
  destruct (Pane.GetTerminalControl pane (Tab._rootPane tab)); done.
Qed.

End TabFacts.

(** ** Splitting the active pane *)

(** A new Tab has one leaf, which is its active pane, and every identity in
    its tree is older than the next new one. *)
Lemma make_one_fresh_leaf profile control e :
  let tab := fst (Tab.make profile control e) in
  let e' := snd (Tab.make profile control e) in
  Tab.GetActiveTerminalControl tab = Some control /\
  Pane.active_leaves (Tab._rootPane tab) = [Tab._activePane tab] /\
  (forall r, r ∈ Pane.refs (Tab._rootPane tab) -> r < nextPane e').
Proof.
  simpl. unfold Tab.GetActiveTerminalControl, Pane.GetTerminalControl. simpl.
  rewrite decide_True by done. repeat split.
  intros r Hr. apply list_elem_of_singleton in Hr. lia.
Qed.

(** C1, as the code has it: when the active pane is a leaf and the
    identities in the tree are older than the next new one, [SplitPane]
    returns, and afterwards the Tab's active pane is the SECOND of the two
    leaves returned by the split, the one holding the new control; the
    first one holds the original session; the second leaf is the only
    active leaf of the tree, and ActivePaneChanged was raised once.  The
    assumption on the identities holds again afterwards, as it does for a
    new Tab. *)
Theorem SplitPane_second_leaf_active splitType profile control tab e c0 :
  Tab.GetActiveTerminalControl tab = Some c0 ->
  (forall r, r ∈ Pane.refs (Tab._rootPane tab) -> r < nextPane e) ->
  exists first second tab' e',
    fst <$> Tab.activePane_Split splitType profile control (tab, e)
      = Some (first, second) /\
    Tab.SplitPane splitType profile control (tab, e) = Some (tt, (tab', e')) /\
    first ≠ second /\
    Pane.GetTerminalControl first (Tab._rootPane tab') = Some c0 /\
    Pane.GetTerminalControl second (Tab._rootPane tab') = Some control /\
    Tab._activePane tab' = second /\
    Pane.active_leaves (Tab._rootPane tab') = [second] /\
    count is_ActivePaneChanged (trace e')
      = count is_ActivePaneChanged (trace e) + 1 /\
    (forall r, r ∈ Pane.refs (Tab._rootPane tab') -> r < nextPane e').
Proof.
  intros Hleaf Hfresh.
  assert (Hf1 : nextPane e ∉ Pane.refs (Tab._rootPane tab))
    by (intros Hin; apply Hfresh in Hin; lia).
  assert (Hf2 : S (nextPane e) ∉ Pane.refs (Tab._rootPane tab))
    by (intros Hin; apply Hfresh in Hin; lia).
  assert (Hne : nextPane e ≠ S (nextPane e)) by lia.
  destruct (Split_total (Tab._activePane tab) splitType profile control
              (nextPane e) (S (nextPane e)) _ _ Hleaf) as [root1 Hsplit].
  destruct (Split_views _ _ _ _ _ _ _ _ _ Hleaf Hf1 Hf2 Hne Hsplit)
    as [Hv1 Hv2].
  exists (nextPane e), (S (nextPane e)).
  unfold Tab.SplitPane, Tab.activePane_Split,
    Tab._AttachEventHandlersToControl, Tab._AttachEventHandlersToPane.
  tab_unfold. cbn [fst snd]. rewrite Hsplit. cbn [fst snd fmap option_fmap option_map].
  rewrite _UpdateActivePane_eq.
  cbn [fst snd Tab._rootPane Tab.set_activePane Tab.set_rootPane]. rewrite Hv2.
  eexists _, _. repeat split; simpl; try done.
  - by rewrite GetTerminalControl_SetActive, GetTerminalControl_ClearActive.
  - by rewrite GetTerminalControl_SetActive, GetTerminalControl_ClearActive.
  - by eapply active_leaves_SetActive_ClearActive.
  - rewrite !count_app; simpl. lia.
  - intros r Hr. apply refs_SetActive in Hr. rewrite refs_ClearActive in Hr.
    eapply refs_Split in Hr as [Hr | [-> | ->]]; [| | | exact Hsplit]; try lia.
    apply Hfresh in Hr. lia.
Qed.

(** The theorem at the new Tab [sample_tab], split vertically for control
    8: the leaves are 1 and 2, and 2 becomes active. *)
Lemma SplitPane_second_leaf_active_witness :
  Tab.GetActiveTerminalControl sample_tab = Some 7 /\
  (forall r, r ∈ Pane.refs (Tab._rootPane sample_tab) -> r < nextPane sample_env1) /\
  exists first second tab' e',
    fst <$> Tab.activePane_Split Vertical 2 8 (sample_tab, sample_env1)
      = Some (first, second) /\
    Tab.SplitPane Vertical 2 8 (sample_tab, sample_env1) = Some (tt, (tab', e')) /\
    first ≠ second /\
    Pane.GetTerminalControl first (Tab._rootPane tab') = Some 7 /\
    Pane.GetTerminalControl second (Tab._rootPane tab') = Some 8 /\
    Tab._activePane tab' = second /\
    Pane.active_leaves (Tab._rootPane tab') = [second] /\
    count is_ActivePaneChanged (trace e')
      = count is_ActivePaneChanged (trace sample_env1) + 1 /\
    (forall r, r ∈ Pane.refs (Tab._rootPane tab') -> r < nextPane e').
Proof.
  assert (Hfresh : forall r, r ∈ Pane.refs (Tab._rootPane sample_tab) ->
                             r < nextPane sample_env1).
  { simpl. intros r Hr. apply list_elem_of_singleton in Hr. lia. }
  split; [reflexivity |]. split; [exact Hfresh |].
  apply (SplitPane_second_leaf_active Vertical 2 8 sample_tab sample_env1 7);
    [reflexivity | exact Hfresh].
Defined.

(** C1 as stated fails: on the new Tab of [sample_env] (one leaf, with
    session 7) the split returns the leaves 1 (original session 7) and 2
    (new control 8), and after [SplitPane] the active pane is 2, not the
    first leaf. *)
Lemma SplitPane_first_leaf_not_active :
  let s0 := Tab.make 1 7 sample_env in
  let r := Tab.SplitPane Vertical 2 8 s0 in
  Tab.GetActiveTerminalControl (fst s0) = Some 7 /\
  fst <$> Tab.activePane_Split Vertical 2 8 s0 = Some (1, 2) /\
  (Pane.GetTerminalControl 1 ∘ Tab._rootPane) <$> Tab.tab_after r = Some (Some 7) /\
  Tab._activePane <$> Tab.tab_after r = Some 2 /\
  Tab._activePane <$> Tab.tab_after r ≠ Some 1.
Proof. vm_compute. repeat split; discriminate. Qed.

(** ** Tracking the active pane *)

(** C2, as the code has it: the check for "already active" is made by the
    GotFocus handler, not by [_UpdateActivePane].  When a leaf gains focus
    twice in succession, the first event raises ActivePaneChanged once if
    the leaf was not the active pane and not at all if it was, and the
    second event changes nothing; [_UpdateActivePane] itself, called twice
    with the same leaf, raises ActivePaneChanged twice. *)
Theorem GotFocus_raises_once sender tab e c :
  Pane.GetTerminalControl sender (Tab._rootPane tab) = Some c ->
  (exists w1,
      Tab.OnGotFocus sender (Tab.mkWorld (Some tab) e) = Some w1 /\
      Tab.OnGotFocus sender w1 = Some w1 /\
      count is_ActivePaneChanged (trace (Tab.outside w1))
        = count is_ActivePaneChanged (trace e)
          + (if decide (sender = Tab._activePane tab) then 0 else 1)) /\
  (exists s1 s2,
      Tab._UpdateActivePane sender (tab, e) = Some (tt, s1) /\
      Tab._UpdateActivePane sender s1 = Some (tt, s2) /\
      count is_ActivePaneChanged (trace (snd s2))
        = count is_ActivePaneChanged (trace e) + 2).
Proof.
  intros Hc. split.
  - unfold Tab.OnGotFocus, Tab.if_alive. tab_unfold. cbn [Tab.live Tab.outside fst snd].
    case_bool_decide as Hs; cbn [negb].
    + eexists. split; [reflexivity |].
      cbn [Tab.live Tab.outside fst snd]. rewrite bool_decide_true by done.
      rewrite decide_True by done. split; [done | simpl; lia].
    + rewrite _UpdateActivePane_eq, Hc. cbn zeta.
      eexists. split; [reflexivity |].
      cbn [Tab.live Tab.outside fst snd Tab._activePane Tab.set_rootPane
             Tab.set_activePane].
      rewrite bool_decide_true by done. rewrite decide_False by done.
      split; [done |]. simpl. rewrite count_app. simpl. lia.
  - rewrite _UpdateActivePane_eq, Hc. cbn zeta.
    eexists _, _. split; [reflexivity |].
    rewrite _UpdateActivePane_eq. cbn [Tab._rootPane Tab.set_rootPane].
    rewrite GetTerminalControl_SetActive, GetTerminalControl_ClearActive, Hc.
    cbn zeta. split; [reflexivity |].
    simpl. rewrite !count_app. simpl. lia.
Qed.

(** The theorem on the one-leaf Tab [sample_tab] and its pane 0. *)
Lemma GotFocus_raises_once_witness :
  Pane.GetTerminalControl 0 (Tab._rootPane sample_tab) = Some 7 /\
  (exists w1,
      Tab.OnGotFocus 0 (Tab.mkWorld (Some sample_tab) sample_env1) = Some w1 /\
      Tab.OnGotFocus 0 w1 = Some w1 /\
      count is_ActivePaneChanged (trace (Tab.outside w1))
        = count is_ActivePaneChanged (trace sample_env1)
          + (if decide (0 = Tab._activePane sample_tab) then 0 else 1)) /\
  (exists s1 s2,
      Tab._UpdateActivePane 0 (sample_tab, sample_env1) = Some (tt, s1) /\
      Tab._UpdateActivePane 0 s1 = Some (tt, s2) /\
      count is_ActivePaneChanged (trace (snd s2))
        = count is_ActivePaneChanged (trace sample_env1) + 2).
Proof.
  split; [reflexivity |].
  apply (GotFocus_raises_once 0 sample_tab sample_env1 7). reflexivity.
Defined.

(** C2 as stated fails: on the one-leaf Tab of [sample_env],
    [_UpdateActivePane] called twice in succession with the leaf 0 raises
    ActivePaneChanged twice, not once. *)
Lemma UpdateActivePane_twice_raises_twice :
  let s0 := Tab.make 1 7 sample_env in
  let r1 := Tab._UpdateActivePane 0 s0 in
  let r2 := r1 ≫= (fun x => Tab._UpdateActivePane 0 (snd x)) in
  (count is_ActivePaneChanged ∘ trace) <$> Tab.env_after r1 = Some 1 /\
  (count is_ActivePaneChanged ∘ trace) <$> Tab.env_after r2 = Some 2 /\
  (count is_ActivePaneChanged ∘ trace) <$> Tab.env_after r2 ≠ Some 1.
Proof. vm_compute. repeat split; discriminate. Qed.

(** ** Focus before and after initialization *)

(** C3, as the code has it: what gates focus is one flag of the Tab,
    [_controlInitialized], and not the state of the control that is to be
    focused.  While the flag is false, [_Focus] changes nothing and
    [SetFocused(true)] only records [_focused]; neither calls Focus on a
    control.  Once the flag is true, [SetFocused(true)] calls Focus on the
    active control, whichever control that is: also on one that [SplitPane]
    attached after the flag was set and from which no TerminalInitialized
    has arrived.  When a TerminalInitialized arrives, in any state, the
    handler sets the flag and focuses without asking whether the Tab is
    focused: afterwards [_focused] is true, and the active control, if there
    is one, has received one programmatic Focus call. *)
Theorem focus_waits_for_initialization tab e :
  (Tab._controlInitialized tab = false ->
   Tab._Focus (tab, e) = Some (tt, (tab, e)) /\
   Tab.SetFocused true (tab, e) = Some (tt, (Tab.set_focused true tab, e))) /\
  (Tab._controlInitialized tab = true ->
   exists e',
     Tab.SetFocused true (tab, e) = Some (tt, (Tab.set_focused true tab, e')) /\
     trace e' = trace e ++ match Tab.GetActiveTerminalControl tab with
                           | Some c => [ControlFocus c]
                           | None => []
                           end) /\
  (exists tab' e',
      Tab.OnTerminalInitialized (Tab.mkWorld (Some tab) e)
        = Some (Tab.mkWorld (Some tab') e') /\
      Tab._controlInitialized tab' = true /\
      Tab._focused tab' = true /\
      trace e' = trace e ++ match Tab.GetActiveTerminalControl tab with
                            | Some c => [ControlFocus c]
                            | None => []
                            end) /\
  (forall splitType profile control c0,
      Tab._controlInitialized tab = true ->
      Tab.GetActiveTerminalControl tab = Some c0 ->
      (forall r, r ∈ Pane.refs (Tab._rootPane tab) -> r < nextPane e) ->
      exists tab1 e1 tab2 e2,
        Tab.SplitPane splitType profile control (tab, e) = Some (tt, (tab1, e1)) /\
        Tab.GetActiveTerminalControl tab1 = Some control /\
        Tab._controlInitialized tab1 = true /\
        Tab.SetFocused true (tab1, e1) = Some (tt, (tab2, e2)) /\
        trace e2 = trace e1 ++ [ControlFocus control]).
Proof.
  split; [| split; [| split]].
  - intros Hinit. split.
    + unfold Tab._Focus. tab_unfold. simpl. by rewrite Hinit.
    + unfold Tab.SetFocused, Tab._Focus. tab_unfold. simpl. by rewrite Hinit.
  - intros Hinit.
    unfold Tab.SetFocused, Tab._Focus, Tab.GetActiveTerminalControl.
    tab_unfold. simpl. rewrite Hinit. simpl.
    destruct (Pane.GetTerminalControl (Tab._activePane tab) (Tab._rootPane tab));
      eexists; (split; [reflexivity |]); simpl; [done | by rewrite app_nil_r].
  - unfold Tab.OnTerminalInitialized, Tab.if_alive, Tab._Focus,
      Tab.GetActiveTerminalControl.
    tab_unfold. simpl.
    destruct (Pane.GetTerminalControl (Tab._activePane tab) (Tab._rootPane tab));
      eexists _, _; simpl; repeat split; simpl.
    by rewrite app_nil_r.
  - intros splitType profile control c0 Hinit Hleaf Hfresh.
    assert (Hf1 : nextPane e ∉ Pane.refs (Tab._rootPane tab))
      by (intros Hin; apply Hfresh in Hin; lia).
    assert (Hf2 : S (nextPane e) ∉ Pane.refs (Tab._rootPane tab))
      by (intros Hin; apply Hfresh in Hin; lia).
    assert (Hne : nextPane e ≠ S (nextPane e)) by lia.
    destruct (Split_total (Tab._activePane tab) splitType profile control
                (nextPane e) (S (nextPane e)) _ _ Hleaf) as [root1 Hsplit].
    destruct (Split_views _ _ _ _ _ _ _ _ _ Hleaf Hf1 Hf2 Hne Hsplit)
      as [_ Hv2].
    unfold Tab.SplitPane, Tab.activePane_Split,
      Tab._AttachEventHandlersToControl, Tab._AttachEventHandlersToPane.
    tab_unfold. cbn [fst snd]. rewrite Hsplit. cbn [fst snd].
    rewrite _UpdateActivePane_eq.
    cbn [fst snd Tab._rootPane Tab.set_activePane Tab.set_rootPane]. rewrite Hv2.
    cbn zeta.
    eexists _, _, _, _. split; [reflexivity |].
    unfold Tab.SetFocused, Tab._Focus, Tab.GetActiveTerminalControl.
    tab_unfold. simpl. rewrite Hinit. simpl.
    rewrite GetTerminalControl_SetActive, GetTerminalControl_ClearActive, Hv2.
    repeat split.
Qed.

(** The theorem on the new, unfocused Tab [sample_tab], whose flag is
    false, and on [sample_initialized_tab], whose flag is true. *)
Lemma focus_waits_for_initialization_witness :
  Tab._controlInitialized sample_tab = false /\
  (Tab._Focus (sample_tab, sample_env1) = Some (tt, (sample_tab, sample_env1)) /\
   Tab.SetFocused true (sample_tab, sample_env1)
     = Some (tt, (Tab.set_focused true sample_tab, sample_env1))) /\
  Tab._controlInitialized sample_initialized_tab = true /\
  Tab.GetActiveTerminalControl sample_initialized_tab = Some 7 /\
  (forall r, r ∈ Pane.refs (Tab._rootPane sample_initialized_tab) ->
             r < nextPane (Tab.outside sample_initialized)) /\
  exists tab1 e1 tab2 e2,
    Tab.SplitPane Vertical 2 8 (sample_initialized_tab, Tab.outside sample_initialized)
      = Some (tt, (tab1, e1)) /\
    Tab.GetActiveTerminalControl tab1 = Some 8 /\
    Tab._controlInitialized tab1 = true /\
    Tab.SetFocused true (tab1, e1) = Some (tt, (tab2, e2)) /\
    trace e2 = trace e1 ++ [ControlFocus 8].
Proof.
  assert (Hfresh : forall r,
             r ∈ Pane.refs (Tab._rootPane sample_initialized_tab) ->
             r < nextPane (Tab.outside sample_initialized)).
  { simpl. intros r Hr. apply list_elem_of_singleton in Hr. lia. }
  destruct (focus_waits_for_initialization sample_tab sample_env1)
    as (Hbefore & _ & _ & _).
  destruct (focus_waits_for_initialization sample_initialized_tab
              (Tab.outside sample_initialized)) as (_ & _ & _ & Hsplit).
  split; [reflexivity |]. split; [exact (Hbefore eq_refl) |].
  split; [reflexivity |]. split; [reflexivity |]. split; [exact Hfresh |].
  exact (Hsplit Vertical 2 8 7 eq_refl eq_refl Hfresh).
Defined.

(** C3 as stated fails twice.  [sample_tab] is not focused and its
    control is not initialized; when TerminalInitialized arrives the Tab
    becomes focused and control 7 receives a Focus call.  And after that one
    TerminalInitialized, with the pane then split for control 8, from which
    no TerminalInitialized has arrived, [SetFocused(true)] calls Focus on
    control 8. *)
Lemma TerminalInitialized_focuses_unfocused_tab :
  let w := Tab.OnTerminalInitialized sample_world in
  let split := w ≫= Tab.call (Tab.SplitPane Vertical 2 8) in
  let focused := split ≫= Tab.call (Tab.SetFocused true) in
  Tab.IsFocused sample_tab = false /\
  Tab._controlInitialized sample_tab = false /\
  Tab.IsFocused <$> (w ≫= Tab.live) = Some true /\
  (trace ∘ Tab.outside) <$> w = Some [ControlFocus 7] /\
  Tab.IsFocused <$> (w ≫= Tab.live) ≠ Some (Tab.IsFocused sample_tab) /\
  Tab.GetActiveTerminalControl <$> (split ≫= Tab.live) = Some (Some 8) /\
  (trace ∘ Tab.outside) <$> split
    = Some [ControlFocus 7; ControlHandlersAttached 8; PaneHandlerAttached 1;
            PaneHandlerAttached 2; ActivePaneChanged] /\
  (trace ∘ Tab.outside) <$> focused
    = Some [ControlFocus 7; ControlHandlersAttached 8; PaneHandlerAttached 1;
            PaneHandlerAttached 2; ActivePaneChanged; ControlFocus 8].
Proof. vm_compute. repeat split; discriminate. Qed.

(** ** Work resumed after the Tab is gone *)

(** C4, as the code has it: when the Tab has been destroyed, the resumed
    icon update, the resumed title update and the dispatched colour change
    find [weakThis.get()] null and leave everything as it is.  The resumed
    [Scroll] makes no such check: it works on the control it captured
    before suspending and scrolls it by [delta]; it has no Tab to touch
    and raises none of the Tab's events. *)
Theorem resumed_work_after_destruction `{ColorHelper} w color control delta :
  Tab.live w = None ->
  Tab.run UpdateIcon_resume w = Some w /\
  Tab.run UpdateTitle_resume w = Some w /\
  Tab.run (SetTabColor_dispatched color) w = Some w /\
  exists w',
    Tab.run (Scroll_resume control delta) w = Some w' /\
    Tab.live w' = None /\
    pending (Tab.outside w') = pending (Tab.outside w) /\
    trace (Tab.outside w')
      = trace (Tab.outside w)
        ++ [ControlScrollViewport control
              (wrap_int (Control.ScrollOffset (controls (Tab.outside w) control)
                         + delta))] /\
    Control.ScrollOffset (controls (Tab.outside w') control)
      = wrap_int (Control.ScrollOffset (controls (Tab.outside w) control) + delta).
Proof.
  intros Hdead. unfold Tab.run, Tab.if_alive. rewrite Hdead.
  repeat split. eexists. split; [reflexivity |].
  simpl. rewrite decide_True by done. done.
Qed.

(** The theorem on [sample_world] after its Tab is destroyed. *)
Lemma resumed_work_after_destruction_witness :
  let w := Tab.destroy sample_world in
  Tab.live w = None /\
  @Tab.run sample_ColorHelper UpdateIcon_resume w = Some w /\
  @Tab.run sample_ColorHelper UpdateTitle_resume w = Some w /\
  @Tab.run sample_ColorHelper (SetTabColor_dispatched darkBlue) w = Some w /\
  exists w',
    @Tab.run sample_ColorHelper (Scroll_resume 7 3) w = Some w' /\
    Tab.live w' = None /\
    pending (Tab.outside w') = pending (Tab.outside w) /\
    trace (Tab.outside w')
      = trace (Tab.outside w)
        ++ [ControlScrollViewport 7
              (wrap_int (Control.ScrollOffset (controls (Tab.outside w) 7) + 3))] /\
    Control.ScrollOffset (controls (Tab.outside w') 7)
      = wrap_int (Control.ScrollOffset (controls (Tab.outside w) 7) + 3).
Proof.
  split; [reflexivity |].
  apply (@resumed_work_after_destruction sample_ColorHelper
           (Tab.destroy sample_world) darkBlue 7 3).
  reflexivity.
Defined.

(** C4 as stated fails for [Scroll]: the Tab of [sample_world] starts
    [Scroll(3)], is destroyed while the coroutine is suspended, and the
    dispatcher then resumes it: control 7 is scrolled from offset 0 to 3
    all the same, so the resumed operation did not become a no-op. *)
Lemma Scroll_resumes_without_the_tab :
  let suspended := Tab.call (Tab.Scroll 3) sample_world in
  let destroyed := Tab.destroy <$> suspended in
  let resumed := destroyed ≫= @Tab.dispatch sample_ColorHelper in
  Tab.live <$> destroyed = Some None /\
  (trace ∘ Tab.outside) <$> destroyed = Some [] /\
  (trace ∘ Tab.outside) <$> resumed = Some [ControlScrollViewport 7 3] /\
  (fun w => Control.ScrollOffset (controls (Tab.outside w) 7)) <$> destroyed = Some 0%Z /\
  (fun w => Control.ScrollOffset (controls (Tab.outside w) 7)) <$> resumed = Some 3%Z /\
  (trace ∘ Tab.outside) <$> resumed ≠ (trace ∘ Tab.outside) <$> destroyed.
Proof. vm_compute. repeat split; discriminate. Qed.

(** ** The display title *)

(** C5: the display title is the runtime title override when one is set
    (the runtime tab text, when it is not empty), otherwise the title of
    the active leaf's session, otherwise the empty string. *)
Theorem GetActiveTitle_is_display_title tab e :
  Tab.GetActiveTitle tab e
    = GetDisplayTitle_spec (runtimeTitleOverride tab) (activeSessionTitle tab e)
  /\ (Tab._runtimeTabText tab ≠ "" ->
      Tab.GetActiveTitle tab e = Tab._runtimeTabText tab)
  /\ (forall c, Tab._runtimeTabText tab = "" ->
                Tab.GetActiveTerminalControl tab = Some c ->
                Tab.GetActiveTitle tab e = Control.Title (controls e c))
  /\ (Tab._runtimeTabText tab = "" ->
      Tab.GetActiveTerminalControl tab = None ->
      Tab.GetActiveTitle tab e = "").
Proof.
  unfold Tab.GetActiveTitle, runtimeTitleOverride, activeSessionTitle.
  repeat split.
  - case_bool_decide; case_decide; try done; simpl.
    destruct (Tab.GetActiveTerminalControl tab); done.
  - intros Hne. by rewrite bool_decide_false.
  - intros c He Hc. by rewrite bool_decide_true, Hc.
  - intros He Hc. by rewrite bool_decide_true, Hc.
Qed.

(** ** Renaming *)

(** C6: on the cancel key the handler puts the runtime tab text back into
    the text box (the edit is discarded), leaves rename mode, and leaves
    the runtime tab text and the display title as they were; the title
    refresh it schedules publishes that same title, and the box losing
    focus afterwards commits nothing new.  When the text box
    loses focus its text becomes the runtime tab text and rename mode is
    left, and the Tab ends up exactly as after the confirm key, with the
    same title refresh scheduled. *)
Theorem rename_cancel_and_blur `{ColorHelper} tab e textBox b c :
  textBoxes e !! textBox = Some b ->
  Tab.GetActiveTerminalControl tab = Some c ->
  (exists tab1 e1 tab1' e1',
      Tab.OnKeyUp (Some textBox) Escape (Tab.mkWorld (Some tab) e)
        = Some (Tab.mkWorld (Some tab1) e1) /\
      Tab._runtimeTabText tab1 = Tab._runtimeTabText tab /\
      Tab._inRename tab1 = false /\
      TextBox.Text <$> textBoxes e1 !! textBox = Some (Tab._runtimeTabText tab) /\
      Tab.GetActiveTitle tab1 e1 = Tab.GetActiveTitle tab e /\
      pending e1 = pending e ++ [UpdateTitle_resume] /\
      Tab.run UpdateTitle_resume (Tab.mkWorld (Some tab1) e1)
        = Some (Tab.mkWorld (Some tab1') e1') /\
      Tab.Title tab1' = Tab.GetActiveTitle tab e /\
      Tab._runtimeTabText
        <$> (Tab.OnLostFocus (Some textBox) (Tab.mkWorld (Some tab1) e1) ≫= Tab.live)
        = Some (Tab._runtimeTabText tab)) /\
  (exists tab2 e2 e3,
      Tab.OnLostFocus (Some textBox) (Tab.mkWorld (Some tab) e)
        = Some (Tab.mkWorld (Some tab2) e2) /\
      Tab.OnKeyUp (Some textBox) Enter (Tab.mkWorld (Some tab) e)
        = Some (Tab.mkWorld (Some tab2) e3) /\
      Tab._runtimeTabText tab2 = TextBox.Text b /\
      Tab._inRename tab2 = false /\
      pending e2 = pending e ++ [UpdateTitle_resume] /\
      pending e3 = pending e2).
Proof.
  intros Hb Hc. unfold Tab.GetActiveTerminalControl in Hc. split.
  - unfold Tab.OnKeyUp, Tab.if_alive, Tab.KeyUp_body, Tab.TextBox_put_Text,
      Tab._UpdateTitle, Tab.GetActiveTerminalControl.
    tab_unfold. simpl. rewrite Hb. simpl. rewrite Hc. simpl.
    eexists _, _, _, _. split; [reflexivity |]. simpl.
    rewrite lookup_insert_eq. do 3 (split; [done |]).
    split.
    { unfold Tab.GetActiveTitle, Tab.GetActiveTerminalControl. simpl. done. }
    split; [done |].
    split.
    { unfold Tab.run, Tab.if_alive, Tab.UpdateTitle_body, Tab._UpdateTabHeader.
      tab_unfold. simpl. reflexivity. }
    split.
    { simpl. unfold Tab.GetActiveTitle, Tab.GetActiveTerminalControl. simpl. done. }
    unfold Tab.OnLostFocus, Tab.if_alive, Tab.LostFocus_body, Tab.TextBox_Text,
      Tab._UpdateTitle, Tab.GetActiveTerminalControl.
    tab_unfold. simpl. rewrite lookup_insert_eq. simpl. rewrite Hc. done.
  - unfold Tab.OnLostFocus, Tab.OnKeyUp, Tab.if_alive, Tab.LostFocus_body,
      Tab.KeyUp_body, Tab.TextBox_Text, Tab.TextBox_put_Text,
      Tab._UpdateTitle, Tab.GetActiveTerminalControl.
    tab_unfold. simpl. rewrite Hb. simpl. rewrite Hb. simpl. rewrite Hc. simpl.
    eexists _, _, _. repeat split.
Qed.

(** The theorem on the Tab being renamed, with "Build" typed into its
    text box 0. *)
Lemma rename_cancel_and_blur_witness :
  textBoxes (Tab.outside sample_editing) !! 0
    = Some (TextBox.mk "Build" 0 (4, 0, 4, 0)%Z (0, -8, 0, -8)%Z) /\
  Tab.GetActiveTerminalControl sample_renaming_tab = Some 7 /\
  (exists tab1 e1 tab1' e1',
      Tab.OnKeyUp (Some 0) Escape sample_editing
        = Some (Tab.mkWorld (Some tab1) e1) /\
      Tab._runtimeTabText tab1 = "" /\
      Tab._inRename tab1 = false /\
      TextBox.Text <$> textBoxes e1 !! 0 = Some "" /\
      Tab.GetActiveTitle tab1 e1 = "pwsh" /\
      pending e1 = [UpdateTitle_resume] /\
      @Tab.run sample_ColorHelper UpdateTitle_resume (Tab.mkWorld (Some tab1) e1)
        = Some (Tab.mkWorld (Some tab1') e1') /\
      Tab.Title tab1' = "pwsh" /\
      Tab._runtimeTabText
        <$> (Tab.OnLostFocus (Some 0) (Tab.mkWorld (Some tab1) e1) ≫= Tab.live)
        = Some "") /\
  (exists tab2 e2 e3,
      Tab.OnLostFocus (Some 0) sample_editing = Some (Tab.mkWorld (Some tab2) e2) /\
      Tab.OnKeyUp (Some 0) Enter sample_editing = Some (Tab.mkWorld (Some tab2) e3) /\
      Tab._runtimeTabText tab2 = "Build" /\
      Tab._inRename tab2 = false /\
      pending e2 = [UpdateTitle_resume] /\
      pending e3 = pending e2).
Proof.
  split; [reflexivity |]. split; [reflexivity |].
  apply (@rename_cancel_and_blur sample_ColorHelper sample_renaming_tab
           (Tab.outside sample_editing) 0
           (TextBox.mk "Build" 0 (4, 0, 4, 0)%Z (0, -8, 0, -8)%Z) 7);
    reflexivity.
Defined.

(** C9: when a rename is committed with empty text, by the text box losing
    focus or by the confirm key, the runtime tab text becomes the empty
    string; the title logic takes that for "no override", and the display
    title is the title of the active leaf's session. *)
Theorem empty_rename_reverts_to_session_title tab e textBox b c :
  textBoxes e !! textBox = Some b ->
  TextBox.Text b = "" ->
  Tab.GetActiveTerminalControl tab = Some c ->
  (exists tab' e',
      Tab.OnLostFocus (Some textBox) (Tab.mkWorld (Some tab) e)
        = Some (Tab.mkWorld (Some tab') e') /\
      Tab._runtimeTabText tab' = "" /\
      runtimeTitleOverride tab' = None /\
      Tab.GetActiveTitle tab' e' = Control.Title (controls e c)) /\
  (exists tab' e',
      Tab.OnKeyUp (Some textBox) Enter (Tab.mkWorld (Some tab) e)
        = Some (Tab.mkWorld (Some tab') e') /\
      Tab._runtimeTabText tab' = "" /\
      runtimeTitleOverride tab' = None /\
      Tab.GetActiveTitle tab' e' = Control.Title (controls e c)).
Proof.
  intros Hb Hempty Hc. unfold Tab.GetActiveTerminalControl in Hc.
  unfold Tab.OnLostFocus, Tab.OnKeyUp, Tab.if_alive, Tab.LostFocus_body,
    Tab.KeyUp_body, Tab.TextBox_Text, Tab.TextBox_put_Text,
    Tab._UpdateTitle, Tab.GetActiveTerminalControl.
  tab_unfold. simpl. rewrite Hb. simpl. rewrite Hb. simpl. rewrite Hc. simpl.
  rewrite Hempty.
  split; eexists _, _; (split; [reflexivity |]); simpl;
    unfold runtimeTitleOverride, Tab.GetActiveTitle, Tab.GetActiveTerminalControl;
    simpl; rewrite Hc; done.
Qed.

(** The theorem on the Tab being renamed, with its text box 0 emptied: the
    display title is "pwsh", the title of control 7. *)
Lemma empty_rename_reverts_to_session_title_witness :
  textBoxes (Tab.outside sample_emptied) !! 0
    = Some (TextBox.mk "" 0 (4, 0, 4, 0)%Z (0, -8, 0, -8)%Z) /\
  Tab.GetActiveTerminalControl sample_renaming_tab = Some 7 /\
  (exists tab' e',
      Tab.OnLostFocus (Some 0) sample_emptied = Some (Tab.mkWorld (Some tab') e') /\
      Tab._runtimeTabText tab' = "" /\
      runtimeTitleOverride tab' = None /\
      Tab.GetActiveTitle tab' e' = "pwsh") /\
  (exists tab' e',
      Tab.OnKeyUp (Some 0) Enter sample_emptied = Some (Tab.mkWorld (Some tab') e') /\
      Tab._runtimeTabText tab' = "" /\
      runtimeTitleOverride tab' = None /\
      Tab.GetActiveTitle tab' e' = "pwsh").
Proof.
  split; [reflexivity |]. split; [reflexivity |].
  apply (empty_rename_reverts_to_session_title sample_renaming_tab
           (Tab.outside sample_emptied) 0
           (TextBox.mk "" 0 (4, 0, 4, 0)%Z (0, -8, 0, -8)%Z) 7);
    reflexivity.
Defined.

(** ** The icon *)

(** C10: [UpdateIcon] with the last applied icon path returns at once: the
    Tab, the dispatcher queue and the trace are as before, so no reload is
    scheduled.  Hence a call of [UpdateIcon] with any path, repeated with the
    same path, does nothing the second time, whether the repetition comes
    before or after the first call's reload has run. *)
Theorem UpdateIcon_same_path_is_noop tab e iconPath c :
  Tab.GetActiveTerminalControl tab = Some c ->
  Tab.UpdateIcon (Tab._lastIconPath tab) (tab, e) = Some (tt, (tab, e)) /\
  exists tab1 e1,
    Tab.UpdateIcon iconPath (tab, e) = Some (tt, (tab1, e1)) /\
    Tab._lastIconPath tab1 = iconPath /\
    Tab.UpdateIcon iconPath (tab1, e1) = Some (tt, (tab1, e1)) /\
    exists tab2 e2,
      Tab.if_alive Tab.UpdateIcon_body (Tab.mkWorld (Some tab1) e1)
        = Some (Tab.mkWorld (Some tab2) e2) /\
      Tab.UpdateIcon iconPath (tab2, e2) = Some (tt, (tab2, e2)).
Proof.
  intros Hc. unfold Tab.GetActiveTerminalControl in Hc.
  assert (Hsame : forall x env, Tab.UpdateIcon (Tab._lastIconPath x) (x, env)
                                = Some (tt, (x, env))).
  { intros x env. unfold Tab.UpdateIcon. tab_unfold. simpl.
    by rewrite decide_True. }
  split; [apply Hsame |].
  unfold Tab.UpdateIcon at 1, Tab.GetActiveTerminalControl. tab_unfold. simpl.
  destruct (decide (iconPath = Tab._lastIconPath tab)) as [-> | Hne].
  - eexists _, _. split; [reflexivity |]. split; [reflexivity |].
    split; [apply Hsame |].
    unfold Tab.if_alive, Tab.UpdateIcon_body. tab_unfold. simpl.
    eexists _, _. split; [reflexivity |].
    apply (Hsame (Tab.set_IconSource _ tab)).
  - simpl. rewrite Hc.
    eexists _, _. split; [reflexivity |]. split; [reflexivity |].
    split; [apply (Hsame (Tab.set_lastIconPath iconPath tab)) |].
    unfold Tab.if_alive, Tab.UpdateIcon_body. tab_unfold. simpl.
    eexists _, _. split; [reflexivity |].
    apply (Hsame (Tab.set_IconSource _ (Tab.set_lastIconPath iconPath tab))).
Qed.

(** The theorem on the new Tab [sample_tab] and an icon path. *)
Lemma UpdateIcon_same_path_is_noop_witness :
  Tab.GetActiveTerminalControl sample_tab = Some 7 /\
  Tab.UpdateIcon (Tab._lastIconPath sample_tab) (sample_tab, sample_env1)
    = Some (tt, (sample_tab, sample_env1)) /\
  exists tab1 e1,
    Tab.UpdateIcon "ms-appx:///ProfileIcons/pwsh.png" (sample_tab, sample_env1)
      = Some (tt, (tab1, e1)) /\
    Tab._lastIconPath tab1 = "ms-appx:///ProfileIcons/pwsh.png" /\
    Tab.UpdateIcon "ms-appx:///ProfileIcons/pwsh.png" (tab1, e1)
      = Some (tt, (tab1, e1)) /\
    exists tab2 e2,
      Tab.if_alive Tab.UpdateIcon_body (Tab.mkWorld (Some tab1) e1)
        = Some (Tab.mkWorld (Some tab2) e2) /\
      Tab.UpdateIcon "ms-appx:///ProfileIcons/pwsh.png" (tab2, e2)
        = Some (tt, (tab2, e2)).
Proof.
  split; [reflexivity |].
  apply (UpdateIcon_same_path_is_noop sample_tab sample_env1
           "ms-appx:///ProfileIcons/pwsh.png" 7).
  reflexivity.
Defined.

(** ** The tab colour *)

Section ColourFacts.

Context `{ColorHelper}.

Lemma same_but_item_refl x : same_but_item x x.
Proof. done. Qed.

Lemma same_but_item_set x y i : same_but_item x y -> same_but_item x (Tab.set_tabViewItem i y).
Proof. unfold same_but_item. intros ->. by destruct y. Qed.

Lemma same_but_item_tabColor x y :
  same_but_item x y -> Tab._tabColor y = Tab._tabColor x.
Proof. intros Hs. by apply (f_equal Tab._tabColor) in Hs. Qed.

Lemma same_but_item_focused x y :
  same_but_item x y -> Tab._focused y = Tab._focused x.
Proof. intros Hs. by apply (f_equal Tab._focused) in Hs. Qed.

(** Membership in [key :: l], decided from membership in [l]. *)
Lemma decide_elem_of_cons {A} (k key : hstring) (l : list hstring) (x y : A) :
  (if decide (k ∈ key :: l) then x else y)
  = if decide (k = key) then x else if decide (k ∈ l) then x else y.
Proof.
  destruct (decide (k = key)) as [-> | Hne].
  - rewrite decide_True; [done | apply elem_of_cons; by left].
  - destruct (decide (k ∈ l)) as [Hin | Hout].
    + rewrite decide_True; [done | apply elem_of_cons; by right].
    + rewrite decide_False; [done |]. apply not_elem_of_cons. done.
Qed.

(** The loop of [_ResetTabColor] removes exactly the listed keys. *)
Lemma for_each_Remove l : forall tab e item,
  Tab._tabViewItem tab = Some item ->
  exists tab' item',
    Tab.for_each l Tab.Resources_Remove_if_HasKey (tab, e) = Some (tt, (tab', e)) /\
    same_but_item tab tab' /\
    Tab._tabViewItem tab' = Some item' /\
    TabViewItem.Header item' = TabViewItem.Header item /\
    forall k, TabViewItem.Resources item' !! k
              = if decide (k ∈ l) then None else TabViewItem.Resources item !! k.
Proof.
  induction l as [|key l IH]; intros tab e item Hitem.
  - exists tab, item. repeat split; done.
  - cbn [Tab.for_each]. unfold Tab.Resources_Remove_if_HasKey at 1.
    tab_unfold. cbn [fst snd]. rewrite Hitem.
    case_bool_decide as Hkey; cbn [fst snd].
    + edestruct (IH (Tab.set_tabViewItem
                       (Some (TabViewItem.with_Resources
                                (delete key (TabViewItem.Resources item)) item)) tab)
                    e) as (tab' & item' & -> & Hs & Hi & Hh & Hk); [done |].
      exists tab', item'. repeat split; try done.
      intros k. rewrite Hk, decide_elem_of_cons. simpl.
      destruct (decide (k = key)) as [-> | Hne].
      * rewrite lookup_delete_eq. by case_decide.
      * by rewrite lookup_delete_ne.
    + edestruct (IH tab e) as (tab' & item' & -> & Hs & Hi & Hh & Hk); [done |].
      exists tab', item'. repeat split; try done.
      intros k. rewrite Hk, decide_elem_of_cons.
      destruct (decide (k = key)) as [-> | Hne]; [| done].
      case_decide; [done |]. by apply eq_None_not_Some.
Qed.

(** [_RefreshVisualState] on a Tab with its TabViewItem. *)
Lemma _RefreshVisualState_eq tab e item :
  Tab._tabViewItem tab = Some item ->
  Tab._RefreshVisualState (tab, e)
  = Some (tt, (tab, with_trace (trace e ++ refresh_states (Tab._focused tab)) e)).
Proof.
  intros Hitem. unfold Tab._RefreshVisualState, Tab.VisualStateManager_GoToState.
  tab_unfold. simpl. unfold refresh_states.
  destruct (Tab._focused tab); simpl; repeat (rewrite Hitem; simpl);
    unfold with_trace; simpl; by rewrite <- app_assoc.
Qed.

End ColourFacts.

Section ColourChanges.

Context `{ColorHelper}.

Lemma bind_Some {A B} (m : Tab.M A) (k : A -> Tab.M B) s a s' :
  m s = Some (a, s') -> Tab.bind m k s = k a s'.
Proof. unfold Tab.bind. by intros ->. Qed.

(** One [Insert] into the resources of the TabViewItem. *)
Lemma Resources_Insert_step key brush tab e res hdr :
  Tab.Resources_Insert key brush
    (Tab.set_tabViewItem (Some (TabViewItem.mk res hdr)) tab, e)
  = Some (tt, (Tab.set_tabViewItem
                 (Some (TabViewItem.mk (<[key := brush]> res) hdr)) tab, e)).
Proof. reflexivity. Qed.

(** The lambda of [_SetTabColor] on a Tab whose TabViewItem has the
    resources [res]. *)
Lemma SetTabColor_body_on color tab e res hdr :
  let fontBrush :=
    if IsBrightColor color then Brush Color.Black else Brush Color.White in
  Tab.SetTabColor_body color
    (Tab.set_tabViewItem (Some (TabViewItem.mk res hdr)) tab, e)
  = Some (tt,
          (Tab.set_tabColor (Some color)
             (Tab.set_tabViewItem
                (Some (TabViewItem.mk
                   (<["TabViewButtonForegroundActiveTab" := fontBrush]>
                   (<["TabViewItemHeaderForegroundPressed" := fontBrush]>
                   (<["TabViewItemHeaderForegroundPointerOver" := fontBrush]>
                   (<["TabViewItemHeaderForegroundSelected" := fontBrush]>
                   (<["TabViewItemHeaderForeground" := fontBrush]>
                   (<["TabViewItemHeaderBackgroundPressed" := Brush color]>
                   (<["TabViewItemHeaderBackgroundPointerOver"
                        := Brush (GetAccentColor color)]>
                   (<["TabViewItemHeaderBackground"
                        := Brush (Color.with_A 64 color)]>
                   (<["TabViewItemHeaderBackgroundSelected" := Brush color]>
                      res)))))))))
                   hdr)) tab),
           with_trace (trace e ++ refresh_states (Tab._focused tab)
                               ++ [ColorSelected color]) e)).
Proof.
  intros fontBrush. unfold Tab.SetTabColor_body. fold fontBrush.
  do 9 (erewrite bind_Some by apply Resources_Insert_step).
  erewrite bind_Some by (eapply _RefreshVisualState_eq; reflexivity).
  unfold Tab.bind, Tab.modify, Tab.emit, Tab.modify_env, with_trace.
  cbn [fst snd trace controls textBoxes nextPane pending Tab._focused
         Tab.set_tabViewItem].
  by rewrite <- app_assoc.
Qed.

(** The same on any Tab with a TabViewItem. *)
Lemma SetTabColor_body_spec color tab e item :
  Tab._tabViewItem tab = Some item ->
  let fontBrush :=
    if IsBrightColor color then Brush Color.Black else Brush Color.White in
  exists tab' e' item',
    Tab.SetTabColor_body color (tab, e) = Some (tt, (tab', e')) /\
    same_but_item (Tab.set_tabColor (Some color) tab) tab' /\
    Tab._tabViewItem tab' = Some item' /\
    TabViewItem.Header item' = TabViewItem.Header item /\
    TabViewItem.Resources item'
    = <["TabViewButtonForegroundActiveTab" := fontBrush]>
      (<["TabViewItemHeaderForegroundPressed" := fontBrush]>
      (<["TabViewItemHeaderForegroundPointerOver" := fontBrush]>
      (<["TabViewItemHeaderForegroundSelected" := fontBrush]>
      (<["TabViewItemHeaderForeground" := fontBrush]>
      (<["TabViewItemHeaderBackgroundPressed" := Brush color]>
      (<["TabViewItemHeaderBackgroundPointerOver" := Brush (GetAccentColor color)]>
      (<["TabViewItemHeaderBackground" := Brush (Color.with_A 64 color)]>
      (<["TabViewItemHeaderBackgroundSelected" := Brush color]>
         (TabViewItem.Resources item))))))))) /\
    pending e' = pending e /\
    trace e' = trace e ++ refresh_states (Tab._focused tab) ++ [ColorSelected color].
Proof.
  intros Hitem fontBrush.
  assert (Htab : tab = Tab.set_tabViewItem
                         (Some (TabViewItem.mk (TabViewItem.Resources item)
                                               (TabViewItem.Header item))) tab).
  { destruct tab, item; simpl in *. by subst. }
  set (tab0 := Tab.set_tabViewItem _ tab) in Htab. rewrite Htab. unfold tab0.
  rewrite SetTabColor_body_on. fold fontBrush.
  eexists _, _, _. split; [reflexivity |].
  split; [reflexivity |]. split; [reflexivity |]. split; [reflexivity |].
  split; [reflexivity |]. split; reflexivity.
Qed.

(** [_ResetTabColor] on a Tab with its TabViewItem. *)
Lemma _ResetTabColor_spec tab e item :
  Tab._tabViewItem tab = Some item ->
  exists tab' e' item',
    Tab._ResetTabColor (tab, e) = Some (tt, (tab', e')) /\
    same_but_item (Tab.set_tabColor None tab) tab' /\
    Tab._tabViewItem tab' = Some item' /\
    TabViewItem.Header item' = TabViewItem.Header item /\
    (forall k, TabViewItem.Resources item' !! k
               = if decide (k ∈ Tab.keys) then None
                 else TabViewItem.Resources item !! k) /\
    pending e' = pending e /\
    trace e' = trace e ++ refresh_states (Tab._focused tab) ++ [ColorCleared].
Proof.
  intros Hitem.
  destruct (for_each_Remove Tab.keys tab e item Hitem)
    as (tab1 & item1 & Hloop & Hs & Hi & Hh & Hk).
  unfold Tab._ResetTabColor. unfold Tab.bind at 1. rewrite Hloop.
  unfold Tab.bind at 1. erewrite _RefreshVisualState_eq by exact Hi.
  tab_unfold. cbn [fst snd].
  eexists _, _, item1. split; [reflexivity |].
  repeat split; try done.
  - unfold same_but_item in *.
    apply (f_equal (Tab.set_tabColor None)) in Hs. by destruct tab, tab1.
  - simpl. rewrite <- app_assoc. by rewrite (same_but_item_focused _ _ Hs).
Qed.

End ColourChanges.

Lemma count_refresh_states f focused :
  (forall name, f (GoToState name) = false) ->
  count f (refresh_states focused) = 0.
Proof. intros Hf. destruct focused; simpl; by rewrite !Hf. Qed.

(** C7: for every colour, [_SetTabColor] hands the work to the dispatcher,
    and when it runs on a Tab that still exists (and has its TabViewItem)
    the foreground is black on a bright colour and white otherwise; the
    selected and pressed backgrounds are the colour, the hover background
    its accent shade, the deselected background the colour with alpha 64;
    the five foreground resources get the foreground; no other resource
    changes; the colour is recorded as the Tab's colour, and after the
    visual-state refresh exactly one ColorSelected is raised, carrying the
    colour. *)
Theorem SetTabColor_themes_the_tab `{ColorHelper} color tab e item :
  Tab._tabViewItem tab = Some item ->
  Tab._SetTabColor color (tab, e)
    = Some (tt, (tab, with_pending (pending e ++ [SetTabColor_dispatched color]) e)) /\
  exists tab' e' item',
    Tab.run (SetTabColor_dispatched color) (Tab.mkWorld (Some tab) e)
      = Some (Tab.mkWorld (Some tab') e') /\
    Tab._tabViewItem tab' = Some item' /\
    let foreground :=
      Brush (if IsBrightColor color then Color.Black else Color.White) in
    let deselected :=
      Brush (Color.mk 64 (Color.R color) (Color.G color) (Color.B color)) in
    let resources := TabViewItem.Resources item' in
    resources !! "TabViewItemHeaderBackgroundSelected" = Some (Brush color) /\
    resources !! "TabViewItemHeaderBackground" = Some deselected /\
    resources !! "TabViewItemHeaderBackgroundPointerOver"
      = Some (Brush (GetAccentColor color)) /\
    resources !! "TabViewItemHeaderBackgroundPressed" = Some (Brush color) /\
    resources !! "TabViewItemHeaderForeground" = Some foreground /\
    resources !! "TabViewItemHeaderForegroundSelected" = Some foreground /\
    resources !! "TabViewItemHeaderForegroundPointerOver" = Some foreground /\
    resources !! "TabViewItemHeaderForegroundPressed" = Some foreground /\
    resources !! "TabViewButtonForegroundActiveTab" = Some foreground /\
    (forall k, k ∉ Tab.keys -> resources !! k = TabViewItem.Resources item !! k) /\
    Tab.GetTabColor tab' = Some color /\
    trace e' = trace e ++ refresh_states (Tab._focused tab) ++ [ColorSelected color] /\
    count is_ColorSelected (trace e') = count is_ColorSelected (trace e) + 1.
Proof.
  intros Hitem. split.
  { unfold Tab._SetTabColor. tab_unfold. simpl. by rewrite Hitem. }
  destruct (SetTabColor_body_spec color tab e item Hitem)
    as (tab' & e' & item' & Hrun & Hs & Hi & _ & Hres & _ & Htr).
  exists tab', e', item'.
  unfold Tab.run, Tab.if_alive. cbn [Tab.live Tab.outside]. rewrite Hrun.
  split; [done |]. split; [done |]. cbv zeta. rewrite Hres.
  assert (Hfg : (if IsBrightColor color then Brush Color.Black else Brush Color.White)
                = Brush (if IsBrightColor color then Color.Black else Color.White))
    by (by destruct (IsBrightColor color)).
  rewrite Hfg.
  do 9 (split; [by repeat (rewrite lookup_insert_ne by discriminate);
                   rewrite lookup_insert_eq |]).
  split.
  { intros k Hk. unfold Tab.keys in Hk.
    repeat (apply not_elem_of_cons in Hk as [? Hk]).
    by rewrite !lookup_insert_ne. }
  split.
  { unfold Tab.GetTabColor. by rewrite (same_but_item_tabColor _ _ Hs). }
  split; [done |].
  rewrite Htr, !count_app, count_refresh_states by done. simpl. lia.
Qed.

(** The theorem on the loaded sample Tab and dark blue, which is not
    bright: the foreground is white. *)
Lemma SetTabColor_themes_the_tab_witness :
  Tab._tabViewItem sample_loaded_tab
    = Some (TabViewItem.mk ∅ TabViewItem.OtherHeader) /\
  exists tab' e' item',
    @Tab.run sample_ColorHelper (SetTabColor_dispatched darkBlue) sample_loaded
      = Some (Tab.mkWorld (Some tab') e') /\
    Tab._tabViewItem tab' = Some item' /\
    TabViewItem.Resources item' !! "TabViewItemHeaderForeground"
      = Some (Brush Color.White) /\
    TabViewItem.Resources item' !! "TabViewItemHeaderBackground"
      = Some (Brush (Color.mk 64 0 0 139)) /\
    Tab.GetTabColor tab' = Some darkBlue /\
    count is_ColorSelected (trace e') = 1.
Proof.
  split; [reflexivity |].
  destruct (@SetTabColor_themes_the_tab sample_ColorHelper darkBlue
              sample_loaded_tab (Tab.outside sample_loaded)
              (TabViewItem.mk ∅ TabViewItem.OtherHeader) eq_refl)
    as (_ & tab' & e' & item' & Hrun & Hi & _ & Hbg & _ & _ & Hfg & _ & _ & _ & _
        & _ & Hcol & _ & Hcount).
  exists tab', e', item'. repeat split; assumption.
Defined.

(** C8, as the code has it: [_ResetTabColor] makes no difference between
    a Tab with a colour and one without: in both cases none of the themed
    resources remains, no other resource changes, the recorded colour is
    absent, and ColorCleared is raised once, after the visual-state
    refresh.  In particular, after the colour change of [_SetTabColor] has
    run and [_ResetTabColor] follows, no themed override remains, the
    resources are those from before the colour was set, the recorded colour
    is absent, and ColorCleared has been raised exactly once. *)
Theorem ResetTabColor_clears_and_notifies `{ColorHelper} color tab e item :
  Tab._tabViewItem tab = Some item ->
  (exists tab' e' item',
      Tab._ResetTabColor (tab, e) = Some (tt, (tab', e')) /\
      Tab._tabViewItem tab' = Some item' /\
      (forall k, k ∈ Tab.keys -> TabViewItem.Resources item' !! k = None) /\
      (forall k, k ∉ Tab.keys ->
                 TabViewItem.Resources item' !! k = TabViewItem.Resources item !! k) /\
      Tab.GetTabColor tab' = None /\
      trace e' = trace e ++ refresh_states (Tab._focused tab) ++ [ColorCleared] /\
      count is_ColorCleared (trace e') = count is_ColorCleared (trace e) + 1) /\
  (exists tab1 e1 tab2 e2 item2,
      Tab.run (SetTabColor_dispatched color) (Tab.mkWorld (Some tab) e)
        = Some (Tab.mkWorld (Some tab1) e1) /\
      Tab.GetTabColor tab1 = Some color /\
      Tab._ResetTabColor (tab1, e1) = Some (tt, (tab2, e2)) /\
      Tab._tabViewItem tab2 = Some item2 /\
      (forall k, k ∈ Tab.keys -> TabViewItem.Resources item2 !! k = None) /\
      (forall k, k ∉ Tab.keys ->
                 TabViewItem.Resources item2 !! k = TabViewItem.Resources item !! k) /\
      Tab.GetTabColor tab2 = None /\
      count is_ColorSelected (trace e2) = count is_ColorSelected (trace e) + 1 /\
      count is_ColorCleared (trace e2) = count is_ColorCleared (trace e) + 1).
Proof.
  intros Hitem. split.
  - destruct (_ResetTabColor_spec tab e item Hitem)
      as (tab' & e' & item' & Hrun & Hs & Hi & _ & Hk & _ & Htr).
    exists tab', e', item'. split; [done |]. split; [done |].
    split; [intros k Hin; by rewrite Hk, decide_True |].
    split; [intros k Hout; by rewrite Hk, decide_False |].
    split; [unfold Tab.GetTabColor; by rewrite (same_but_item_tabColor _ _ Hs) |].
    split; [done |].
    rewrite Htr, !count_app, count_refresh_states by done. simpl. lia.
  - destruct (SetTabColor_body_spec color tab e item Hitem)
      as (tab1 & e1 & item1 & Hrun1 & Hs1 & Hi1 & _ & Hres1 & _ & Htr1).
    destruct (_ResetTabColor_spec tab1 e1 item1 Hi1)
      as (tab2 & e2 & item2 & Hrun2 & Hs2 & Hi2 & _ & Hk2 & _ & Htr2).
    exists tab1, e1, tab2, e2, item2.
    unfold Tab.run, Tab.if_alive. cbn [Tab.live Tab.outside]. rewrite Hrun1.
    split; [done |].
    split; [unfold Tab.GetTabColor; by rewrite (same_but_item_tabColor _ _ Hs1) |].
    split; [done |]. split; [done |].
    split; [intros k Hin; by rewrite Hk2, decide_True |].
    split.
    { intros k Hout. rewrite Hk2, decide_False, Hres1 by done.
      unfold Tab.keys in Hout.
      repeat (apply not_elem_of_cons in Hout as [? Hout]).
      by rewrite !lookup_insert_ne. }
    split; [unfold Tab.GetTabColor; by rewrite (same_but_item_tabColor _ _ Hs2) |].
    rewrite Htr2, Htr1, !count_app, !count_refresh_states by done.
    simpl. lia.
Qed.

(** The theorem on the loaded sample Tab, which has no colour, and dark
    blue. *)
Lemma ResetTabColor_clears_and_notifies_witness :
  Tab._tabViewItem sample_loaded_tab
    = Some (TabViewItem.mk ∅ TabViewItem.OtherHeader) /\
  Tab.GetTabColor sample_loaded_tab = None /\
  (exists tab' e',
      Tab._ResetTabColor (sample_loaded_tab, Tab.outside sample_loaded)
        = Some (tt, (tab', e')) /\
      Tab.GetTabColor tab' = None /\
      count is_ColorCleared (trace e') = 1) /\
  (exists tab1 e1 tab2 e2 item2,
      @Tab.run sample_ColorHelper (SetTabColor_dispatched darkBlue) sample_loaded
        = Some (Tab.mkWorld (Some tab1) e1) /\
      Tab._ResetTabColor (tab1, e1) = Some (tt, (tab2, e2)) /\
      Tab._tabViewItem tab2 = Some item2 /\
      (forall k, k ∈ Tab.keys -> TabViewItem.Resources item2 !! k = None) /\
      Tab.GetTabColor tab2 = None /\
      count is_ColorCleared (trace e2) = 1).
Proof.
  split; [reflexivity |]. split; [reflexivity |].
  destruct (@ResetTabColor_clears_and_notifies sample_ColorHelper darkBlue
              sample_loaded_tab (Tab.outside sample_loaded)
              (TabViewItem.mk ∅ TabViewItem.OtherHeader) eq_refl)
    as ((tab' & e' & item' & Hrun & _ & _ & _ & Hcol & _ & Hcount)
        & (tab1 & e1 & tab2 & e2 & item2 & Hrun1 & _ & Hrun2 & Hi2 & Hk2 & _
           & Hcol2 & _ & Hcount2)).
  split.
  - exists tab', e'. repeat split; assumption.
  - exists tab1, e1, tab2, e2, item2. repeat split; assumption.
Defined.

(** C8 as stated fails in its first part: the loaded sample Tab has no
    colour assigned, and clearing its colour, by [_ResetTabColor] or through
    the colour picker's ColorCleared handler, raises one ColorCleared
    notification (and asks for two visual-state changes). *)
Lemma ResetTabColor_without_color_still_notifies :
  let r := Tab._ResetTabColor (sample_loaded_tab, Tab.outside sample_loaded) in
  Tab.GetTabColor sample_loaded_tab = None /\
  trace (Tab.outside sample_loaded) = [] /\
  trace <$> Tab.env_after r
    = Some [GoToState "Selected"; GoToState "Normal"; ColorCleared] /\
  (count is_ColorCleared ∘ trace) <$> Tab.env_after r = Some 1 /\
  (count is_ColorCleared ∘ trace ∘ Tab.outside) <$> Tab.OnColorCleared sample_loaded
    = Some 1 /\
  (count is_ColorCleared ∘ trace) <$> Tab.env_after r ≠ Some 0.
Proof. vm_compute. repeat split; discriminate. Qed.

(** * Further properties *)

(** ** Icon and title refreshes read the Tab when they resume *)

(** X1: two icon updates with different paths, both made before the
    dispatcher runs: each resumed update loads the icon of the path stored
    last, so the icon of the first path is never shown and the second icon
    is set twice. *)
Theorem UpdateIcon_latest_path_wins `{ColorHelper} tab e c p1 p2 :
  Tab.GetActiveTerminalControl tab = Some c ->
  pending e = [] ->
  p1 ≠ Tab._lastIconPath tab ->
  p2 ≠ p1 ->
  exists tab' e',
    perform_all [Call_UpdateIcon p1; Call_UpdateIcon p2; Dispatch; Dispatch]
                (Tab.mkWorld (Some tab) e)
      = Some (Tab.mkWorld (Some tab') e') /\
    Tab.IconSource tab' = Some (ColoredIcon p2) /\
    Tab._lastIconPath tab' = p2 /\
    pending e' = [] /\
    trace e' = trace e ++ [IconSourceSet (ColoredIcon p2);
                           IconSourceSet (ColoredIcon p2)].
Proof.
  intros Hc Hq H1 H2. unfold Tab.GetActiveTerminalControl in Hc.
  unfold perform_all, perform, Tab.call, Tab.dispatch, Tab.run, Tab.if_alive,
    Tab.UpdateIcon, Tab.UpdateIcon_body, Tab.GetActiveTerminalControl.
  tab_unfold. simpl.
  rewrite (decide_False (P := p1 = Tab._lastIconPath tab)) by done. simpl.
  rewrite Hc. simpl.
  rewrite (decide_False (P := p2 = p1)) by done. simpl.
  rewrite Hc. simpl. rewrite Hq. simpl.
  eexists _, _. split; [reflexivity |]. simpl.
  repeat split. by rewrite <- app_assoc.
Qed.

Lemma UpdateIcon_latest_path_wins_witness :
  Tab.GetActiveTerminalControl sample_tab = Some 7 /\
  pending sample_env1 = [] /\
  "a.png" ≠ Tab._lastIconPath sample_tab /\
  "b.png" ≠ "a.png" /\
  exists tab' e',
    @perform_all sample_ColorHelper
      [Call_UpdateIcon "a.png"; Call_UpdateIcon "b.png"; Dispatch; Dispatch]
      (Tab.mkWorld (Some sample_tab) sample_env1)
      = Some (Tab.mkWorld (Some tab') e') /\
    Tab.IconSource tab' = Some (ColoredIcon "b.png") /\
    Tab._lastIconPath tab' = "b.png" /\
    pending e' = [] /\
    trace e' = trace sample_env1 ++ [IconSourceSet (ColoredIcon "b.png");
                                     IconSourceSet (ColoredIcon "b.png")].
Proof.
  split; [reflexivity |]. split; [reflexivity |].
  split; [discriminate |]. split; [discriminate |].
  apply (@UpdateIcon_latest_path_wins sample_ColorHelper sample_tab sample_env1 7
           "a.png" "b.png"); (reflexivity || discriminate).
Defined.

(** X2: a title refresh publishes the display title as it is when the
    refresh resumes, not as it was when TitleChanged arrived: if the active
    session changes its title to [title] in between, a Tab that is not
    being renamed publishes its override if it has one and [title]
    otherwise, and sets the Title property twice with that value. *)
Theorem title_refresh_reads_at_resumption `{ColorHelper} tab e c title :
  Tab.GetActiveTerminalControl tab = Some c ->
  pending e = [] ->
  Tab._inRename tab = false ->
  let published :=
    if decide (Tab._runtimeTabText tab = "") then title
    else Tab._runtimeTabText tab in
  exists tab' e',
    perform_all [Ev_TitleChanged; Session_retitles c title; Dispatch]
                (Tab.mkWorld (Some tab) e)
      = Some (Tab.mkWorld (Some tab') e') /\
    Tab.Title tab' = published /\
    trace e' = trace e ++ [TitleSet published; TitleSet published] /\
    pending e' = [].
Proof.
  intros Hc Hq Hr published. unfold Tab.GetActiveTerminalControl in Hc.
  unfold perform_all, perform, Tab.OnTitleChanged, Tab.dispatch, Tab.run,
    Tab.if_alive, Tab._UpdateTitle, Tab.UpdateTitle_body, Tab._UpdateTabHeader,
    session_retitles, Tab.GetActiveTerminalControl.
  tab_unfold. simpl. rewrite Hc. simpl. rewrite Hq. simpl. rewrite Hr. simpl.
  assert (Ht : forall x e0,
             Tab._runtimeTabText x = Tab._runtimeTabText tab ->
             Tab.GetActiveTerminalControl x = Some c ->
             Control.Title (controls e0 c) = title ->
             Tab.GetActiveTitle x e0 = published).
  { intros x e0 Hx Hxc Hxt. unfold Tab.GetActiveTitle, published.
    rewrite Hx, Hxc, Hxt. case_bool_decide; case_decide; done. }
  eexists _, _. split; [reflexivity |]. simpl.
  rewrite !Ht; try done; simpl; try (by rewrite decide_True).
  repeat split. by rewrite <- app_assoc.
Qed.

Lemma title_refresh_reads_at_resumption_witness :
  Tab.GetActiveTerminalControl sample_tab = Some 7 /\
  pending sample_env1 = [] /\
  Tab._inRename sample_tab = false /\
  exists tab' e',
    @perform_all sample_ColorHelper
      [Ev_TitleChanged; Session_retitles 7 "vim"; Dispatch]
      (Tab.mkWorld (Some sample_tab) sample_env1)
      = Some (Tab.mkWorld (Some tab') e') /\
    Tab.Title tab' = "vim" /\
    trace e' = trace sample_env1 ++ [TitleSet "vim"; TitleSet "vim"] /\
    pending e' = [].
Proof.
  do 3 (split; [reflexivity |]).
  apply (@title_refresh_reads_at_resumption sample_ColorHelper sample_tab
           sample_env1 7 "vim"); reflexivity.
Defined.

(** ** The rename box *)

(** X3: choosing "rename" on a Tab whose header holds no text box creates
    exactly one text box, under an identity no text box had before, seeded
    with the current display title; the header now holds it and the Tab is
    in rename mode; no other text box changes.  Choosing "rename" again
    changes nothing: the box already in the header is left as it is. *)
Theorem rename_click_creates_one_box tab e item :
  Tab._tabViewItem tab = Some item ->
  TabViewItem.Header item = TabViewItem.OtherHeader ->
  exists box tab' e' item',
    Tab._OnRenameTabMenuItemClick (tab, e) = Some (tt, (tab', e')) /\
    textBoxes e !! box = None /\
    textBoxes e'
      = <[box := TextBox.mk (Tab.GetActiveTitle tab e) 0 (4, 0, 4, 0)%Z (0, -8, 0, -8)%Z]>
          (textBoxes e) /\
    Tab._tabViewItem tab' = Some item' /\
    TabViewItem.Header item' = TabViewItem.TextBoxHeader box /\
    TabViewItem.Resources item' = TabViewItem.Resources item /\
    Tab._inRename tab' = true /\
    Tab._runtimeTabText tab' = Tab._runtimeTabText tab /\
    Tab._OnRenameTabMenuItemClick (tab', e') = Some (tt, (tab', e')).
Proof.
  intros Hitem Hhdr.
  exists (fresh (dom (textBoxes e))).
  unfold Tab._OnRenameTabMenuItemClick, Tab._UpdateTabHeader,
    Tab._ConstructTabRenameBox.
  tab_unfold. simpl. rewrite Hitem, Hhdr. simpl.
  eexists _, _, _. split; [reflexivity |]. simpl.
  split. { apply not_elem_of_dom, is_fresh. }
  split.
  { unfold Tab.GetActiveTitle, Tab.GetActiveTerminalControl. simpl. done. }
  repeat split.
Qed.

Lemma rename_click_creates_one_box_witness :
  Tab._tabViewItem sample_loaded_tab
    = Some (TabViewItem.mk ∅ TabViewItem.OtherHeader) /\
  exists box tab' e' item',
    Tab._OnRenameTabMenuItemClick (sample_loaded_tab, Tab.outside sample_loaded)
      = Some (tt, (tab', e')) /\
    textBoxes (Tab.outside sample_loaded) !! box = None /\
    textBoxes e'
      = <[box := TextBox.mk "pwsh" 0 (4, 0, 4, 0)%Z (0, -8, 0, -8)%Z]>
          (textBoxes (Tab.outside sample_loaded)) /\
    Tab._tabViewItem tab' = Some item' /\
    TabViewItem.Header item' = TabViewItem.TextBoxHeader box /\
    TabViewItem.Resources item' = ∅ /\
    Tab._inRename tab' = true /\
    Tab._runtimeTabText tab' = "" /\
    Tab._OnRenameTabMenuItemClick (tab', e') = Some (tt, (tab', e')).
Proof.
  split; [reflexivity |].
  apply (rename_click_creates_one_box sample_loaded_tab (Tab.outside sample_loaded)
           (TabViewItem.mk ∅ TabViewItem.OtherHeader)); reflexivity.
Defined.

(** ** The colour of the Tab, as equations *)

(** Lookups with known keys through a pile of inserts. *)
Ltac lookup_inserts :=
  repeat match goal with
         | |- context [ <[?i:=?x]> ?m !! ?j ] =>
             first [ rewrite (lookup_insert_ne m i j x) by discriminate
                   | rewrite (lookup_insert_eq m i x) ]
         end.

Section ColourAlgebra.

Context `{ColorHelper}.

(** A Tab with a TabViewItem is that Tab with this TabViewItem set. *)
Lemma tab_with_its_item tab item :
  Tab._tabViewItem tab = Some item ->
  tab = Tab.set_tabViewItem
          (Some (TabViewItem.mk (TabViewItem.Resources item) (TabViewItem.Header item)))
          tab.
Proof. intros Hitem. destruct tab, item; simpl in *. by subst. Qed.

Lemma SetTabColor_body_exact color tab e item :
  Tab._tabViewItem tab = Some item ->
  Tab.SetTabColor_body color (tab, e)
  = Some (tt,
          (Tab.set_tabColor (Some color)
             (Tab.set_tabViewItem
                (Some (TabViewItem.mk (themed_resources color (TabViewItem.Resources item))
                                      (TabViewItem.Header item))) tab),
           with_trace (trace e ++ refresh_states (Tab._focused tab)
                               ++ [ColorSelected color]) e)).
Proof.
  intros Hitem. pose proof (tab_with_its_item tab item Hitem) as Htab.
  set (tab0 := Tab.set_tabViewItem _ tab) in Htab.
  rewrite Htab at 1. unfold tab0. rewrite SetTabColor_body_on. reflexivity.
Qed.

(** One round of the loop of [_ResetTabColor]. *)
Lemma Resources_Remove_step key tab e res hdr :
  Tab.Resources_Remove_if_HasKey key
    (Tab.set_tabViewItem (Some (TabViewItem.mk res hdr)) tab, e)
  = Some (tt, (Tab.set_tabViewItem
                 (Some (TabViewItem.mk (delete key res) hdr)) tab, e)).
Proof.
  unfold Tab.Resources_Remove_if_HasKey. tab_unfold. simpl.
  case_bool_decide as Hkey; [reflexivity |].
  rewrite delete_id; [reflexivity |]. by apply eq_None_not_Some.
Qed.

Lemma for_each_Remove_exact l : forall tab e res hdr,
  Tab.for_each l Tab.Resources_Remove_if_HasKey
    (Tab.set_tabViewItem (Some (TabViewItem.mk res hdr)) tab, e)
  = Some (tt, (Tab.set_tabViewItem
                 (Some (TabViewItem.mk (removed_keys l res) hdr)) tab, e)).
Proof.
  induction l as [|key l IH]; intros tab e res hdr; [reflexivity |].
  cbn [Tab.for_each removed_keys].
  erewrite bind_Some by apply Resources_Remove_step. apply IH.
Qed.

Lemma _ResetTabColor_exact tab e item :
  Tab._tabViewItem tab = Some item ->
  Tab._ResetTabColor (tab, e)
  = Some (tt,
          (Tab.set_tabColor None
             (Tab.set_tabViewItem
                (Some (TabViewItem.mk (removed_keys Tab.keys (TabViewItem.Resources item))
                                      (TabViewItem.Header item))) tab),
           with_trace (trace e ++ refresh_states (Tab._focused tab) ++ [ColorCleared]) e)).
Proof.
  intros Hitem. pose proof (tab_with_its_item tab item Hitem) as Htab.
  set (tab0 := Tab.set_tabViewItem _ tab) in Htab.
  rewrite Htab at 1. unfold tab0. unfold Tab._ResetTabColor.
  erewrite bind_Some by apply for_each_Remove_exact.
  erewrite bind_Some by (eapply _RefreshVisualState_eq; reflexivity).
  unfold Tab.bind, Tab.modify, Tab.emit, Tab.modify_env, with_trace.
  cbn [fst snd trace controls textBoxes nextPane pending Tab._focused
         Tab.set_tabViewItem].
  by rewrite <- app_assoc.
Qed.

Lemma lookup_removed_keys l : forall res k,
  removed_keys l res !! k = if decide (k ∈ l) then None else res !! k.
Proof.
  induction l as [|key l IH]; intros res k; [done |].
  cbn [removed_keys]. rewrite IH, decide_elem_of_cons.
  destruct (decide (k = key)) as [-> | Hne].
  - rewrite lookup_delete_eq. by case_decide.
  - by rewrite lookup_delete_ne.
Qed.

Lemma lookup_themed_other color res k :
  k ∉ Tab.keys -> themed_resources color res !! k = res !! k.
Proof.
  intros Hk. unfold Tab.keys in Hk.
  repeat (apply not_elem_of_cons in Hk as [? Hk]).
  unfold themed_resources. by rewrite !lookup_insert_ne.
Qed.

(** Whatever was themed before, theming again leaves only the new theme. *)
Lemma themed_themed c1 c2 res :
  themed_resources c2 (themed_resources c1 res) = themed_resources c2 res.
Proof.
  apply map_eq. intros k.
  destruct (decide (k ∈ Tab.keys)) as [Hin | Hout].
  - unfold Tab.keys in Hin. unfold themed_resources.
    repeat (apply elem_of_cons in Hin as [-> | Hin]; [by lookup_inserts |]).
    by apply elem_of_nil in Hin.
  - by rewrite !lookup_themed_other.
Qed.

(** Removing the themed keys forgets the theme. *)
Lemma removed_themed color res :
  removed_keys Tab.keys (themed_resources color res) = removed_keys Tab.keys res.
Proof.
  apply map_eq. intros k. rewrite !lookup_removed_keys.
  case_decide; [done |]. by apply lookup_themed_other.
Qed.

Lemma removed_absent res :
  (forall k, k ∈ Tab.keys -> res !! k = None) ->
  removed_keys Tab.keys res = res.
Proof.
  intros Habs. apply map_eq. intros k. rewrite lookup_removed_keys.
  case_decide; [by rewrite Habs | done].
Qed.

End ColourAlgebra.

(** X5: when two colour changes run one after the other, the Tab ends up
    exactly as if only the second had run: no resource and no field keeps
    anything of the first colour.  Both changes refresh the visual state
    and raise ColorSelected. *)
Theorem last_colour_wins `{ColorHelper} c1 c2 tab e item :
  Tab._tabViewItem tab = Some item ->
  exists tab2 e12 e2,
    Tab.run (SetTabColor_dispatched c1) (Tab.mkWorld (Some tab) e)
      ≫= Tab.run (SetTabColor_dispatched c2)
      = Some (Tab.mkWorld (Some tab2) e12) /\
    Tab.run (SetTabColor_dispatched c2) (Tab.mkWorld (Some tab) e)
      = Some (Tab.mkWorld (Some tab2) e2) /\
    Tab.GetTabColor tab2 = Some c2 /\
    trace e12 = trace e ++ refresh_states (Tab._focused tab) ++ [ColorSelected c1]
                        ++ refresh_states (Tab._focused tab) ++ [ColorSelected c2].
Proof.
  intros Hitem. unfold Tab.run, Tab.if_alive. cbn [Tab.live Tab.outside].
  rewrite !(SetTabColor_body_exact _ tab e item Hitem).
  cbn [mbind option_bind Tab.live Tab.outside].
  erewrite SetTabColor_body_exact by reflexivity.
  cbn [TabViewItem.Resources TabViewItem.Header]. rewrite themed_themed.
  eexists _, _, _. split; [reflexivity |]. split; [reflexivity |].
  split; [reflexivity |]. simpl. by rewrite <- !app_assoc.
Qed.

Lemma last_colour_wins_witness :
  Tab._tabViewItem sample_loaded_tab
    = Some (TabViewItem.mk ∅ TabViewItem.OtherHeader) /\
  exists tab2 e12 e2,
    @Tab.run sample_ColorHelper (SetTabColor_dispatched Color.White) sample_loaded
      ≫= @Tab.run sample_ColorHelper (SetTabColor_dispatched darkBlue)
      = Some (Tab.mkWorld (Some tab2) e12) /\
    @Tab.run sample_ColorHelper (SetTabColor_dispatched darkBlue) sample_loaded
      = Some (Tab.mkWorld (Some tab2) e2) /\
    Tab.GetTabColor tab2 = Some darkBlue /\
    trace e12 = trace (Tab.outside sample_loaded)
                ++ refresh_states false ++ [ColorSelected Color.White]
                ++ refresh_states false ++ [ColorSelected darkBlue].
Proof.
  split; [reflexivity |].
  apply (@last_colour_wins sample_ColorHelper Color.White darkBlue
           sample_loaded_tab (Tab.outside sample_loaded)
           (TabViewItem.mk ∅ TabViewItem.OtherHeader)).
  reflexivity.
Defined.

(** X6: on a Tab without a colour whose TabViewItem has none of the nine
    themed resources, a colour change followed by the colour picker's
    ColorCleared puts the Tab back exactly as it was: every field and the
    whole resource dictionary are as before.  What remains are the events:
    two visual-state refreshes, one ColorSelected, one ColorCleared. *)
Theorem colour_set_then_cleared_restores_tab `{ColorHelper} color tab e item :
  Tab._tabViewItem tab = Some item ->
  Tab._tabColor tab = None ->
  (forall k, k ∈ Tab.keys -> TabViewItem.Resources item !! k = None) ->
  exists e',
    Tab.run (SetTabColor_dispatched color) (Tab.mkWorld (Some tab) e)
      ≫= Tab.OnColorCleared
      = Some (Tab.mkWorld (Some tab) e') /\
    pending e' = pending e /\
    trace e' = trace e ++ refresh_states (Tab._focused tab) ++ [ColorSelected color]
                       ++ refresh_states (Tab._focused tab) ++ [ColorCleared].
Proof.
  intros Hitem Hcol Habs.
  unfold Tab.run, Tab.OnColorCleared, Tab.if_alive. cbn [Tab.live Tab.outside].
  rewrite (SetTabColor_body_exact _ tab e item Hitem).
  cbn [mbind option_bind Tab.live Tab.outside].
  erewrite _ResetTabColor_exact by reflexivity.
  cbn [TabViewItem.Resources TabViewItem.Header].
  rewrite removed_themed, removed_absent by done.
  eexists. split.
  - do 2 f_equal. destruct tab, item; simpl in *. by subst.
  - split; [reflexivity |]. simpl. by rewrite <- !app_assoc.
Qed.

Lemma colour_set_then_cleared_restores_tab_witness :
  Tab._tabViewItem sample_loaded_tab
    = Some (TabViewItem.mk ∅ TabViewItem.OtherHeader) /\
  Tab._tabColor sample_loaded_tab = None /\
  exists e',
    @Tab.run sample_ColorHelper (SetTabColor_dispatched darkBlue) sample_loaded
      ≫= Tab.OnColorCleared
      = Some (Tab.mkWorld (Some sample_loaded_tab) e') /\
    pending e' = pending (Tab.outside sample_loaded) /\
    trace e' = trace (Tab.outside sample_loaded)
               ++ refresh_states false ++ [ColorSelected darkBlue]
               ++ refresh_states false ++ [ColorCleared].
Proof.
  split; [reflexivity |]. split; [reflexivity |].
  apply (@colour_set_then_cleared_restores_tab sample_ColorHelper darkBlue
           sample_loaded_tab (Tab.outside sample_loaded)
           (TabViewItem.mk ∅ TabViewItem.OtherHeader));
    [reflexivity | reflexivity | intros k _; apply lookup_empty].
Defined.

(** ** Focus *)


(** ** The shape of the tree *)

Section TreeShape.

Implicit Types (p n : Pane.t) (r x : PaneRef).

Lemma GetLeafPaneCount_length p : GetLeafPaneCount p = length (leaf_controls p).
Proof.
  induction p as [r0 c0 g0 a0 | r0 o q pa IHa pb IHb]; simpl; [done |].
  by rewrite length_app, IHa, IHb.
Qed.

Lemma leaf_controls_ClearActive p :
  leaf_controls (Pane.ClearActive p) = leaf_controls p.
Proof.
  induction p as [r0 c0 g0 a0 | r0 o q pa IHa pb IHb]; simpl; [done |].
  by rewrite IHa, IHb.
Qed.

(** Replacing the leaf that [r] denotes puts the sessions of the new node
    where the session of that leaf was. *)
Lemma leaf_controls_replace r n p r' c g a :
  Pane.find r p = Some (Pane.Leaf r' c g a) ->
  exists l1 l2,
    leaf_controls p = l1 ++ [c] ++ l2 /\
    leaf_controls (Pane.replace r n p) = l1 ++ leaf_controls n ++ l2.
Proof.
  induction p as [r0 c0 g0 a0 | r0 o q pa IHa pb IHb]; simpl.
  - case_decide; [| discriminate]. intros [= -> -> -> ->].
    exists [], []. by rewrite app_nil_r.
  - case_decide; [discriminate |]. intros Hf.
    destruct (Pane.find r pa) eqn:Ha; simpl.
    + destruct IHa as (l1 & l2 & -> & ->); [congruence |].
      exists l1, (l2 ++ leaf_controls pb). by rewrite <- !app_assoc.
    + destruct IHb as (l1 & l2 & -> & ->); [done |].
      exists (leaf_controls pa ++ l1), l2. by rewrite <- !app_assoc.
Qed.

Lemma leaf_controls_SetActive r p :
  leaf_controls (Pane.SetActive r p) = leaf_controls p.
Proof.
  unfold Pane.SetActive.
  destruct (Pane.find r p) as [[r' c g a | ]|] eqn:Hf; try done.
  destruct (leaf_controls_replace r (Pane.Leaf r' c g true) p _ _ _ _ Hf)
    as (l1 & l2 & -> & ->). done.
Qed.

(** [SplitPane] in one step: it needs the active pane to be a leaf, and the
    second new identity to denote the new leaf afterwards. *)
Lemma SplitPane_eq splitType profile control tab e :
  Tab.SplitPane splitType profile control (tab, e) =
  let first := nextPane e in
  let second := S (nextPane e) in
  match Pane.Split (Tab._activePane tab) splitType profile control first second
                   (Tab._rootPane tab) with
  | Some root1 =>
      match Pane.GetTerminalControl second root1 with
      | Some _ =>
          Some (tt,
                (Tab.set_rootPane (Pane.SetActive second (Pane.ClearActive root1))
                   (Tab.set_activePane second tab),
                 with_trace (trace e ++ [ControlHandlersAttached control;
                                         PaneHandlerAttached first;
                                         PaneHandlerAttached second;
                                         ActivePaneChanged])
                   (with_pending (pending e ++ [UpdateTitle_resume])
                      (with_nextPane (S (S (nextPane e))) e))))
      | None => None
      end
  | None => None
  end.
Proof.
  unfold Tab.SplitPane, Tab.activePane_Split,
    Tab._AttachEventHandlersToControl, Tab._AttachEventHandlersToPane.
  tab_unfold. cbn [fst snd].
  destruct (Pane.Split _ _ _ _ _ _ _) as [root1|]; [| done].
  cbn [fst snd]. rewrite _UpdateActivePane_eq.
  cbn [fst snd Tab._rootPane Tab.set_activePane Tab.set_rootPane].
  destruct (Pane.GetTerminalControl _ root1); [| done].
  cbn zeta. do 3 f_equal. unfold with_trace; simpl.
  by rewrite <- !app_assoc.
Qed.

End TreeShape.

(** X8: [SplitPane] on a Tab whose active pane is a leaf adds exactly one
    leaf: the sessions of the leaves, read from first to last, are the old
    ones with the new control put directly after the session of the pane
    that was active; no session is lost, moved or duplicated, and the leaf
    count grows by one. *)
Theorem SplitPane_adds_one_leaf splitType profile control tab e c0 :
  Tab.GetActiveTerminalControl tab = Some c0 ->
  (forall r, r ∈ Pane.refs (Tab._rootPane tab) -> r < nextPane e) ->
  exists tab' e' before after,
    Tab.SplitPane splitType profile control (tab, e) = Some (tt, (tab', e')) /\
    leaf_controls (Tab._rootPane tab) = before ++ [c0] ++ after /\
    leaf_controls (Tab._rootPane tab') = before ++ [c0; control] ++ after /\
    _GetLeafPaneCount tab' = S (_GetLeafPaneCount tab).
Proof.
  intros Hleaf Hfresh.
  assert (Hf1 : nextPane e ∉ Pane.refs (Tab._rootPane tab))
    by (intros Hin; apply Hfresh in Hin; lia).
  assert (Hf2 : S (nextPane e) ∉ Pane.refs (Tab._rootPane tab))
    by (intros Hin; apply Hfresh in Hin; lia).
  assert (Hne : nextPane e ≠ S (nextPane e)) by lia.
  destruct (Split_total (Tab._activePane tab) splitType profile control
              (nextPane e) (S (nextPane e)) _ _ Hleaf) as [root1 Hsplit].
  destruct (Split_views _ _ _ _ _ _ _ _ _ Hleaf Hf1 Hf2 Hne Hsplit)
    as [_ Hv2].
  rewrite SplitPane_eq. cbn zeta. rewrite Hsplit, Hv2.
  unfold Tab.GetActiveTerminalControl, Pane.GetTerminalControl in Hleaf.
  unfold Pane.Split in Hsplit.
  destruct (Pane.find _ _) as [[r' c g a | ]|] eqn:Hfind; try discriminate.
  injection Hleaf as ->. injection Hsplit as <-.
  edestruct (leaf_controls_replace (Tab._activePane tab)) as (l1 & l2 & Hold & Hnew);
    [exact Hfind |].
  eexists _, _, l1, l2. split; [reflexivity |]. split; [exact Hold |].
  cbn [Tab._rootPane Tab.set_rootPane].
  rewrite leaf_controls_SetActive, leaf_controls_ClearActive, Hnew.
  split; [done |].
  unfold _GetLeafPaneCount. cbn [Tab._rootPane Tab.set_rootPane].
  rewrite !GetLeafPaneCount_length, leaf_controls_SetActive,
    leaf_controls_ClearActive, Hnew, Hold, !length_app. simpl. lia.
Qed.

Lemma SplitPane_adds_one_leaf_witness :
  Tab.GetActiveTerminalControl sample_tab = Some 7 /\
  (forall r, r ∈ Pane.refs (Tab._rootPane sample_tab) -> r < nextPane sample_env1) /\
  exists tab' e' before after,
    Tab.SplitPane Vertical 2 8 (sample_tab, sample_env1) = Some (tt, (tab', e')) /\
    leaf_controls (Tab._rootPane sample_tab) = before ++ [7] ++ after /\
    leaf_controls (Tab._rootPane tab') = before ++ [7; 8] ++ after /\
    _GetLeafPaneCount tab' = S (_GetLeafPaneCount sample_tab).
Proof.
  assert (Hfresh : forall r, r ∈ Pane.refs (Tab._rootPane sample_tab) ->
                             r < nextPane sample_env1).
  { simpl. intros r Hr. apply list_elem_of_singleton in Hr. lia. }
  split; [reflexivity |]. split; [exact Hfresh |].
  apply (SplitPane_adds_one_leaf Vertical 2 8 sample_tab sample_env1 7);
    [reflexivity | exact Hfresh].
Defined.

(** ** Scrolling *)

(** X9: [Scroll] scrolls the control that was active when it was called.
    If another leaf gains focus before the dispatcher resumes the scroll,
    the scroll still goes to the first control, by [delta] from that
    control's offset at resumption, although the active control is now the
    other one. *)
Theorem Scroll_keeps_its_control `{ColorHelper} tab e delta c0 sender c1 :
  Tab.GetActiveTerminalControl tab = Some c0 ->
  pending e = [] ->
  sender ≠ Tab._activePane tab ->
  Pane.GetTerminalControl sender (Tab._rootPane tab) = Some c1 ->
  exists tab' e',
    perform_all [Call_Scroll delta; Ev_GotFocus sender; Dispatch]
                (Tab.mkWorld (Some tab) e)
      = Some (Tab.mkWorld (Some tab') e') /\
    Tab.GetActiveTerminalControl tab' = Some c1 /\
    trace e' = trace e
               ++ [ActivePaneChanged;
                   ControlScrollViewport c0
                     (wrap_int (Control.ScrollOffset (controls e c0) + delta))] /\
    Control.ScrollOffset (controls e' c0)
      = wrap_int (Control.ScrollOffset (controls e c0) + delta) /\
    (c1 ≠ c0 ->
     Control.ScrollOffset (controls e' c1) = Control.ScrollOffset (controls e c1)) /\
    pending e' = [UpdateTitle_resume].
Proof.
  intros Hc0 Hq Hne Hc1. unfold Tab.GetActiveTerminalControl in Hc0.
  unfold perform_all, perform, Tab.call, Tab.OnGotFocus, Tab.dispatch, Tab.run,
    Tab.if_alive, Tab.Scroll, Tab.Scroll_body, Tab.GetActiveTerminalControl.
  tab_unfold. cbn [Tab.live Tab.outside fst snd]. rewrite Hc0.
  cbn [Tab.live Tab.outside fst snd].
  rewrite bool_decide_false by done. cbn [negb].
  rewrite _UpdateActivePane_eq, Hc1. cbn zeta. cbn [Tab.live Tab.outside].
  simpl. rewrite Hq. simpl.
  eexists _, _. split; [reflexivity |]. simpl.
  rewrite GetTerminalControl_SetActive, GetTerminalControl_ClearActive.
  split; [done |]. split; [by rewrite <- app_assoc |].
  split; [by rewrite decide_True |]. split; [| done].
  intros Hd. by rewrite decide_False.
Qed.

Lemma Scroll_keeps_its_control_witness :
  Tab.GetActiveTerminalControl sample_split_tab = Some 8 /\
  pending sample_split_env = [] /\
  1 ≠ Tab._activePane sample_split_tab /\
  Pane.GetTerminalControl 1 (Tab._rootPane sample_split_tab) = Some 7 /\
  exists tab' e',
    @perform_all sample_ColorHelper [Call_Scroll 3; Ev_GotFocus 1; Dispatch]
      (Tab.mkWorld (Some sample_split_tab) sample_split_env)
      = Some (Tab.mkWorld (Some tab') e') /\
    Tab.GetActiveTerminalControl tab' = Some 7 /\
    trace e' = trace sample_split_env
               ++ [ActivePaneChanged; ControlScrollViewport 8 3] /\
    Control.ScrollOffset (controls e' 8) = 3%Z /\
    (7 ≠ 8 -> Control.ScrollOffset (controls e' 7) = 0%Z) /\
    pending e' = [UpdateTitle_resume].
Proof.
  split; [reflexivity |]. split; [reflexivity |].
  split; [vm_compute; discriminate |]. split; [reflexivity |].
  apply (@Scroll_keeps_its_control sample_ColorHelper sample_split_tab
           sample_split_env 3 8 1 7);
    [reflexivity | reflexivity | vm_compute; discriminate | reflexivity].
Defined.

(** ** What every action preserves *)

Section Steps.

Context `{ColorHelper}.

Lemma bind_None {A B} (m : Tab.M A) (k : A -> Tab.M B) s :
  m s = None -> Tab.bind m k s = None.
Proof. unfold Tab.bind. by intros ->. Qed.

(** The lambda of [_SetTabColor] and [_ResetTabColor], with or without a
    TabViewItem. *)
Lemma SetTabColor_body_eq color tab e :
  Tab.SetTabColor_body color (tab, e) =
  match Tab._tabViewItem tab with
  | Some item =>
      Some (tt,
            (Tab.set_tabColor (Some color)
               (Tab.set_tabViewItem
                  (Some (TabViewItem.mk
                           (themed_resources color (TabViewItem.Resources item))
                           (TabViewItem.Header item))) tab),
             with_trace (trace e ++ refresh_states (Tab._focused tab)
                                 ++ [ColorSelected color]) e))
  | None => None
  end.
Proof.
  destruct (Tab._tabViewItem tab) as [item|] eqn:Hitem.
  - by apply SetTabColor_body_exact.
  - unfold Tab.SetTabColor_body. apply bind_None.
    unfold Tab.Resources_Insert. tab_unfold. simpl. by rewrite Hitem.
Qed.

Lemma _ResetTabColor_eq tab e :
  Tab._ResetTabColor (tab, e) =
  match Tab._tabViewItem tab with
  | Some item =>
      Some (tt,
            (Tab.set_tabColor None
               (Tab.set_tabViewItem
                  (Some (TabViewItem.mk
                           (removed_keys Tab.keys (TabViewItem.Resources item))
                           (TabViewItem.Header item))) tab),
             with_trace (trace e ++ refresh_states (Tab._focused tab)
                                 ++ [ColorCleared]) e))
  | None => None
  end.
Proof.
  destruct (Tab._tabViewItem tab) as [item|] eqn:Hitem.
  - by apply _ResetTabColor_exact.
  - unfold Tab._ResetTabColor, Tab.keys. cbn [Tab.for_each].
    do 2 apply bind_None.
    unfold Tab.Resources_Remove_if_HasKey. tab_unfold. simpl. by rewrite Hitem.
Qed.

End Steps.

(** The actions, handlers and short member functions, unfolded on demand. *)
Create HintDb tab_actions.
#[global] Hint Unfold perform Tab.call Tab.dispatch Tab.run Tab.if_alive
  Tab.OnTitleChanged Tab.OnTerminalInitialized Tab.OnGotFocus
  Tab.OnLostFocus Tab.OnKeyUp Tab.OnColorSelected Tab.OnColorCleared
  Tab.OnFontSizeChanged Tab.OnLayoutUpdated Tab.LayoutUpdated_body
  Tab.OnRootPaneClosed Tab.Shutdown
  Tab.SetFocused Tab._Focus Tab.UpdateIcon Tab.UpdateIcon_body
  Tab.Scroll Tab.Scroll_body ScrollViewport Tab.Initialize
  Tab._BindEventHandlers Tab._AttachEventHandlersToControl
  Tab._AttachEventHandlersToPane Tab._OnTabItemLoaded Tab._CreateContextMenu
  Tab._OnRenameTabMenuItemClick Tab._UpdateTabHeader
  Tab._ConstructTabRenameBox Tab._UpdateTitle Tab.UpdateTitle_body
  Tab.LostFocus_body Tab.KeyUp_body Tab.TextBox_Text Tab.TextBox_put_Text
  Tab._SetTabColor user_edits session_retitles Tab.destroy
  : tab_actions.

(** Case analysis of one action: unfold it, use the one-step equations of
    the longer member functions, and split on every test the code makes. *)
Ltac crack :=
  repeat autounfold with tab_actions tab_monad in *;
  cbn [Tab.live Tab.outside fst snd] in *;
  repeat first
    [ progress (rewrite ?SplitPane_eq, ?_UpdateActivePane_eq,
                 ?SetTabColor_body_eq, ?_ResetTabColor_eq in * )
    | progress simplify_eq/=
    | case_match ].

Section Invariants.

Context `{ColorHelper}.

(** A property kept by every allowed action is kept by every sequence of
    allowed actions. *)
Lemma perform_all_preserves (P : Tab.World -> Prop) (allowed : Action -> Prop) :
  (forall a w w', allowed a -> P w -> perform a w = Some w' -> P w') ->
  forall l w w', Forall allowed l -> P w -> perform_all l w = Some w' -> P w'.
Proof.
  intros Hstep l. induction l as [|a l IH]; intros w w' Hall HP; simpl.
  - by intros [= <-].
  - apply Forall_cons in Hall as [Ha Hl].
    destruct (perform a w) as [w1|] eqn:Hp; [| done].
    intros Hrest. eapply IH; [done | | done]. by eapply Hstep.
Qed.

(** A destroyed Tab stays destroyed. *)
Lemma perform_dead a w w' :
  perform a w = Some w' -> Tab.live w = None -> Tab.live w' = None.
Proof.
  intros Hp Hd. destruct w as [[tab|] e]; [done |].
  destruct a; crack; done.
Qed.

Lemma perform_focus_gate a w w' :
  a ≠ Ev_TerminalInitialized ->
  perform a w = Some w' ->
  (forall tab, Tab.live w = Some tab -> Tab._controlInitialized tab = false) ->
  count is_ControlFocus (trace (Tab.outside w'))
    = count is_ControlFocus (trace (Tab.outside w)) /\
  (forall tab', Tab.live w' = Some tab' -> Tab._controlInitialized tab' = false).
Proof.
  intros Ha Hp Hq. destruct w as [[tab|] e]; cbn [Tab.live Tab.outside] in *.
  - specialize (Hq tab eq_refl).
    destruct a; try done; crack;
      try (rewrite Hq in *; done);
      (split; [rewrite ?count_app, ?count_refresh_states by done; simpl; lia
              | intros ? [= <-]; simpl; done]).
  - destruct a; crack; try done; (split; [rewrite ?count_app; simpl; lia | done]).
Qed.


(** Every action keeps the panes in order. *)
Lemma perform_pane_ok a w w' :
  perform a w = Some w' -> pane_ok w -> pane_ok w'.
Proof.
  intros Hp Hok. destruct w as [[tab|] e].
  - destruct (Hok tab eq_refl) as ([c0 Hc0] & Hact & Hfresh).
    cbn [Tab.outside] in Hfresh. unfold Tab.GetActiveTerminalControl in Hc0.
    destruct a; crack;
      try (intros ? [= <-]; unfold Tab.GetActiveTerminalControl; simpl;
           split; [by eexists | done]).
    all: try done.
    + match goal with
      | Hs : Pane.Split _ _ _ _ _ _ _ = Some ?root1,
        Hv : Pane.GetTerminalControl _ ?root1 = Some _ |- _ =>
          intros ? [= <-]; unfold Tab.GetActiveTerminalControl; simpl;
          split; [| split];
          [ rewrite GetTerminalControl_SetActive, GetTerminalControl_ClearActive, Hv;
            by eexists
          | by eapply active_leaves_SetActive_ClearActive
          | intros r Hr; apply refs_SetActive in Hr; rewrite refs_ClearActive in Hr;
            eapply refs_Split in Hr as [Hr | [-> | ->]]; [| | | exact Hs];
            try lia; apply Hfresh in Hr; lia ]
      end.
    + match goal with
      | Hv : Pane.GetTerminalControl ?sender (Tab._rootPane tab) = Some _
        |- pane_ok {| Tab.live := Some (Tab.set_rootPane (Pane.SetActive ?sender _) _);
                      Tab.outside := _ |} =>
          intros ? [= <-]; unfold Tab.GetActiveTerminalControl; simpl;
          split; [| split];
          [ rewrite GetTerminalControl_SetActive, GetTerminalControl_ClearActive, Hv;
            by eexists
          | by eapply active_leaves_SetActive_ClearActive
          | intros r Hr; apply refs_SetActive in Hr; rewrite refs_ClearActive in Hr;
            by apply Hfresh ]
      end.
  - intros tab Hlive. by rewrite (perform_dead _ _ _ Hp eq_refl) in Hlive.
Qed.


(** Only the rename box changes the runtime tab text, by losing focus or by
    the confirm key. *)
Lemma perform_runtimeTabText a w w' tab' :
  commits_rename a = false ->
  perform a w = Some w' ->
  Tab.live w' = Some tab' ->
  exists tab,
    Tab.live w = Some tab /\ Tab._runtimeTabText tab' = Tab._runtimeTabText tab.
Proof.
  intros Ha Hp Hl. destruct w as [[tab|] e].
  - exists tab. split; [done |]. destruct a; crack; done.
  - by rewrite (perform_dead _ _ _ Hp eq_refl) in Hl.
Qed.

End Invariants.

(** ** Invariants of the life of a Tab *)

(** X10: as long as no TerminalInitialized has been delivered, no action
    makes the Tab call Focus on a terminal control: not [SetFocused], not a
    split, not a run of a pane's GotFocus lambda, not a resumed task, not
    [Shutdown]; the LayoutUpdated lambda of the rename box focuses the text
    box, not a control.  The flag [_controlInitialized] also stays false.
    This is about the Focus call of [_Focus], the only one that Tab.cpp
    makes on a control; the Focus calls made from inside the tree of panes
    (by [NavigateFocus], or when a pane closes) belong to Pane.cpp and are
    not counted. *)
Theorem no_focus_before_initialization `{ColorHelper} l : forall w w',
  existsb is_TerminalInitialized l = false ->
  (forall tab, Tab.live w = Some tab -> Tab._controlInitialized tab = false) ->
  perform_all l w = Some w' ->
  count is_ControlFocus (trace (Tab.outside w'))
    = count is_ControlFocus (trace (Tab.outside w)) /\
  (forall tab', Tab.live w' = Some tab' -> Tab._controlInitialized tab' = false).
Proof.
  induction l as [|a l IH]; intros w w' Hl Hinit; simpl.
  - by intros [= <-].
  - simpl in Hl. apply orb_false_iff in Hl as [Ha Hl].
    destruct (perform a w) as [w1|] eqn:Hp; [| done]. intros Hrest.
    destruct (perform_focus_gate a w w1) as [Hcount Hinit1]; try done.
    { by intros ->. }
    destruct (IH w1 w' Hl Hinit1 Hrest) as [Hcount' Hinit']. split; [| done].
    by rewrite Hcount'.
Qed.

Lemma no_focus_before_initialization_witness :
  existsb is_TerminalInitialized sample_actions = false /\
  (forall tab, Tab.live sample_world = Some tab ->
               Tab._controlInitialized tab = false) /\
  @perform_all sample_ColorHelper sample_actions sample_world
    = Some sample_after_actions /\
  count is_ControlFocus (trace (Tab.outside sample_after_actions))
    = count is_ControlFocus (trace (Tab.outside sample_world)) /\
  (forall tab', Tab.live sample_after_actions = Some tab' ->
                Tab._controlInitialized tab' = false).
Proof.
  assert (Hinit : forall tab, Tab.live sample_world = Some tab ->
                              Tab._controlInitialized tab = false)
    by (by intros tab [= <-]).
  assert (Hrun : @perform_all sample_ColorHelper sample_actions sample_world
                 = Some sample_after_actions) by (vm_compute; reflexivity).
  split; [reflexivity |]. split; [exact Hinit |]. split; [exact Hrun |].
  exact (@no_focus_before_initialization sample_ColorHelper sample_actions
           sample_world sample_after_actions eq_refl Hinit Hrun).
Defined.

(** X11: through every sequence of actions on a new Tab, which is a life
    of the Tab in which no pane is closed ([ClosePane],
    [_OnCloseTabMenuItemClick] and the end of a session are not actions)
    and focus is not moved from inside the tree ([NavigateFocus]), as long
    as the Tab exists its active pane is a leaf hosting a control, that leaf
    is the one and only leaf flagged active, and no identity in the tree is
    as new as the next pane's will be.  Nothing is said of a Tab one of
    whose panes has closed: how the tree and [_activePane] fare then is
    decided in Pane.cpp. *)
Theorem panes_stay_in_order `{ColorHelper} profile control e0 l w' tab' :
  perform_all l (Tab.mkWorld (Some (fst (Tab.make profile control e0)))
                             (snd (Tab.make profile control e0)))
    = Some w' ->
  Tab.live w' = Some tab' ->
  is_Some (Tab.GetActiveTerminalControl tab') /\
  Pane.active_leaves (Tab._rootPane tab') = [Tab._activePane tab'] /\
  (forall r, r ∈ Pane.refs (Tab._rootPane tab') -> r < nextPane (Tab.outside w')).
Proof.
  intros Hrun Hlive.
  assert (Hok : pane_ok w'); [| by apply Hok].
  eapply (perform_all_preserves pane_ok (fun _ => True)); [| | | exact Hrun].
  - intros a w1 w2 _ Hw1 Hp. by eapply perform_pane_ok.
  - by apply Forall_true.
  - intros tab [= <-].
    destruct (make_one_fresh_leaf profile control e0) as (Hc & Hact & Hfresh).
    split; [by eexists | done].
Qed.

Lemma panes_stay_in_order_witness :
  @perform_all sample_ColorHelper sample_actions
    (Tab.mkWorld (Some (fst (Tab.make 1 7 sample_env)))
                 (snd (Tab.make 1 7 sample_env)))
    = Some sample_after_actions /\
  exists tab',
    Tab.live sample_after_actions = Some tab' /\
    is_Some (Tab.GetActiveTerminalControl tab') /\
    Pane.active_leaves (Tab._rootPane tab') = [Tab._activePane tab'] /\
    (forall r, r ∈ Pane.refs (Tab._rootPane tab') ->
               r < nextPane (Tab.outside sample_after_actions)).
Proof.
  assert (Hrun : @perform_all sample_ColorHelper sample_actions
                   (Tab.mkWorld (Some (fst (Tab.make 1 7 sample_env)))
                                (snd (Tab.make 1 7 sample_env)))
                 = Some sample_after_actions) by (vm_compute; reflexivity).
  split; [exact Hrun |].
  destruct (Tab.live sample_after_actions) as [tab'|] eqn:Hlive;
    [| vm_compute in Hlive; discriminate].
  exists tab'. split; [reflexivity |].
  exact (@panes_stay_in_order sample_ColorHelper 1 7 sample_env sample_actions
           sample_after_actions tab' Hrun Hlive).
Defined.



(** X14: the runtime tab text is changed by nothing but the rename box
    losing focus or getting the confirm key.  So once a name has been
    given to the Tab, the display title is that name after any sequence of
    other actions: splits, focus changes, title changes of the sessions,
    colour changes, the cancel key. *)
Theorem rename_override_persists `{ColorHelper} l : forall w w' tab',
  existsb commits_rename l = false ->
  perform_all l w = Some w' ->
  Tab.live w' = Some tab' ->
  exists tab,
    Tab.live w = Some tab /\
    Tab._runtimeTabText tab' = Tab._runtimeTabText tab /\
    (Tab._runtimeTabText tab ≠ "" ->
     Tab.GetActiveTitle tab' (Tab.outside w') = Tab._runtimeTabText tab).
Proof.
  induction l as [|a l IH]; intros w w' tab' Hl; simpl.
  - intros [= <-] Hlive. exists tab'. split; [done |]. split; [done |].
    intros Hne. unfold Tab.GetActiveTitle. by rewrite bool_decide_false.
  - simpl in Hl. apply orb_false_iff in Hl as [Ha Hl].
    destruct (perform a w) as [w1|] eqn:Hp; [| done]. intros Hrest Hlive.
    destruct (IH w1 w' tab' Hl Hrest Hlive) as (tab1 & Hl1 & Ht1 & Hd1).
    destruct (perform_runtimeTabText a w w1 tab1 Ha Hp Hl1) as (tab & Hl0 & Ht0).
    exists tab. split; [done |]. rewrite <- Ht0. split; [done |].
    intros Hne. by apply Hd1.
Qed.

Lemma rename_override_persists_witness :
  existsb commits_rename sample_later_actions = false /\
  @perform_all sample_ColorHelper sample_later_actions sample_named
    = Some sample_named_later /\
  exists tab',
    Tab.live sample_named_later = Some tab' /\
    exists tab,
      Tab.live sample_named = Some tab /\
      Tab._runtimeTabText tab' = Tab._runtimeTabText tab /\
      (Tab._runtimeTabText tab ≠ "" ->
       Tab.GetActiveTitle tab' (Tab.outside sample_named_later)
       = Tab._runtimeTabText tab).
Proof.
  assert (Hrun : @perform_all sample_ColorHelper sample_later_actions sample_named
                 = Some sample_named_later) by (vm_compute; reflexivity).
  split; [reflexivity |]. split; [exact Hrun |].
  destruct (Tab.live sample_named_later) as [tab'|] eqn:Hlive;
    [| vm_compute in Hlive; discriminate].
  exists tab'. split; [reflexivity |].
  exact (@rename_override_persists sample_ColorHelper sample_later_actions
           sample_named sample_named_later tab' eq_refl Hrun Hlive).
Defined.

(** X15: no member function or handler schedules more than one task, and
    none drops or reorders what is queued: it leaves the queue as it is or
    puts one task at its end.  A task that the dispatcher runs schedules
    nothing further: after [Dispatch] the queue is the old one without its
    oldest task. *)
Theorem each_action_schedules_at_most_one_task `{ColorHelper} a w w' :
  perform a w = Some w' ->
  match a with
  | Dispatch => pending (Tab.outside w') = tail (pending (Tab.outside w))
  | _ => exists l, pending (Tab.outside w') = pending (Tab.outside w) ++ l /\
                   length l <= 1
  end.
Proof.
  intros Hp. destruct w as [[tab|] e];
    destruct a; crack; try done;
    first [ exists []; rewrite app_nil_r; split; [done | simpl; lia]
          | eexists [_]; split; [reflexivity | simpl; lia] ].
Qed.

Lemma each_action_schedules_at_most_one_task_witness :
  @perform sample_ColorHelper Dispatch sample_destroyed
    = Some (Tab.mkWorld None
              (Tab.Scroll_body 7 3
                 (with_pending [UpdateTitle_resume] (Tab.outside sample_destroyed)))) /\
  pending (Tab.Scroll_body 7 3
             (with_pending [UpdateTitle_resume] (Tab.outside sample_destroyed)))
    = tail (pending (Tab.outside sample_destroyed)).
Proof.
  assert (Hrun : @perform sample_ColorHelper Dispatch sample_destroyed
                 = Some (Tab.mkWorld None
                           (Tab.Scroll_body 7 3
                              (with_pending [UpdateTitle_resume]
                                 (Tab.outside sample_destroyed)))))
    by reflexivity.
  split; [exact Hrun |].
  exact (@each_action_schedules_at_most_one_task sample_ColorHelper Dispatch sample_destroyed
           _ Hrun).
Defined.

(** X16: each of the notifications ActivePaneChanged, ColorSelected and
    ColorCleared has its own sources, and one action (one call of a member
    function, one run of one registered lambda, one task of the dispatcher)
    raises each of them at most once.  ActivePaneChanged can only come from
    [SplitPane] or from a run of a pane's GotFocus lambda, ColorSelected
    only from the dispatcher (running a colour change), ColorCleared only
    from a run of the colour picker's ColorCleared lambda or from
    [Shutdown], which raises it every time, whether or not the Tab has a
    colour.  [_CreateContextMenu] registers one more ColorCleared lambda at
    every Loaded event of the TabViewItem, so one event of the picker can
    be several such runs. *)
Theorem notifications_have_their_sources `{ColorHelper} a w w' :
  perform a w = Some w' ->
  let before f := count f (trace (Tab.outside w)) in
  let after f := count f (trace (Tab.outside w')) in
  (before is_ActivePaneChanged <= after is_ActivePaneChanged
     <= before is_ActivePaneChanged + 1) /\
  (before is_ColorSelected <= after is_ColorSelected
     <= before is_ColorSelected + 1) /\
  (before is_ColorCleared <= after is_ColorCleared
     <= before is_ColorCleared + 1) /\
  match a with
  | Call_SplitPane _ _ _ | Ev_GotFocus _ =>
      after is_ColorSelected = before is_ColorSelected /\
      after is_ColorCleared = before is_ColorCleared
  | Dispatch =>
      after is_ActivePaneChanged = before is_ActivePaneChanged /\
      after is_ColorCleared = before is_ColorCleared
  | Ev_ColorCleared =>
      after is_ActivePaneChanged = before is_ActivePaneChanged /\
      after is_ColorSelected = before is_ColorSelected
  | Call_Shutdown =>
      after is_ActivePaneChanged = before is_ActivePaneChanged /\
      after is_ColorSelected = before is_ColorSelected /\
      after is_ColorCleared = before is_ColorCleared + 1
  | _ =>
      after is_ActivePaneChanged = before is_ActivePaneChanged /\
      after is_ColorSelected = before is_ColorSelected /\
      after is_ColorCleared = before is_ColorCleared
  end.
Proof.
  intros Hp. cbv zeta.
  destruct w as [[tab|] e]; destruct a; crack; try done;
    rewrite ?count_app, ?count_refresh_states by done; simpl;
    repeat split; lia.
Qed.

(** The theorem on a split of the new Tab and on the shutdown of the
    loaded Tab, which has no colour. *)
Lemma notifications_have_their_sources_witness :
  (exists w',
      @perform sample_ColorHelper (Call_SplitPane Vertical 2 8) sample_world = Some w' /\
      count is_ActivePaneChanged (trace (Tab.outside w'))
        <= count is_ActivePaneChanged (trace (Tab.outside sample_world)) + 1 /\
      count is_ColorSelected (trace (Tab.outside w'))
        = count is_ColorSelected (trace (Tab.outside sample_world)) /\
      count is_ColorCleared (trace (Tab.outside w'))
        = count is_ColorCleared (trace (Tab.outside sample_world))) /\
  (exists w',
      @perform sample_ColorHelper Call_Shutdown sample_loaded = Some w' /\
      Tab.GetTabColor sample_loaded_tab = None /\
      count is_ColorCleared (trace (Tab.outside w'))
        = count is_ColorCleared (trace (Tab.outside sample_loaded)) + 1).
Proof.
  split.
  - destruct (@perform sample_ColorHelper (Call_SplitPane Vertical 2 8) sample_world)
      as [w'|] eqn:Hp; [| vm_compute in Hp; discriminate].
    exists w'. split; [reflexivity |].
    destruct (@notifications_have_their_sources sample_ColorHelper
                (Call_SplitPane Vertical 2 8) sample_world w' Hp)
      as ([_ Hle] & _ & _ & Hsel & Hclr).
    split; [exact Hle |]. split; [exact Hsel | exact Hclr].
  - destruct (@perform sample_ColorHelper Call_Shutdown sample_loaded)
      as [w'|] eqn:Hp; [| vm_compute in Hp; discriminate].
    exists w'. split; [reflexivity |]. split; [reflexivity |].
    destruct (@notifications_have_their_sources sample_ColorHelper
                Call_Shutdown sample_loaded w' Hp)
      as (_ & _ & _ & _ & _ & Hclr).
    exact Hclr.
Defined.

(** ** Scrolls add up *)

Lemma wrap_int_add_l a b : wrap_int (wrap_int a + b) = wrap_int (a + b).
Proof.
  unfold wrap_int. f_equal.
  replace ((a + 2147483648) mod 4294967296 - 2147483648 + b + 2147483648)%Z
    with ((a + 2147483648) mod 4294967296 + b)%Z by lia.
  rewrite Zplus_mod_idemp_l. f_equal. lia.
Qed.

(** X17: a resumed [Scroll] reads the control's offset when it resumes.
    Two scrolls called before the dispatcher runs therefore add up: the
    second scrolls on from where the first one left the control, and the
    control ends at its old offset plus both deltas (as a 32-bit int);
    the Tab itself is unchanged. *)
Theorem queued_scrolls_add_up `{ColorHelper} tab e c d1 d2 :
  Tab.GetActiveTerminalControl tab = Some c ->
  pending e = [] ->
  let offset := Control.ScrollOffset (controls e c) in
  exists e',
    perform_all [Call_Scroll d1; Call_Scroll d2; Dispatch; Dispatch]
                (Tab.mkWorld (Some tab) e)
      = Some (Tab.mkWorld (Some tab) e') /\
    trace e' = trace e
               ++ [ControlScrollViewport c (wrap_int (offset + d1));
                   ControlScrollViewport c (wrap_int (offset + d1 + d2))] /\
    Control.ScrollOffset (controls e' c) = wrap_int (offset + d1 + d2) /\
    pending e' = [].
Proof.
  intros Hc Hq offset. unfold Tab.GetActiveTerminalControl in Hc.
  unfold perform_all, perform, Tab.call, Tab.dispatch, Tab.run, Tab.Scroll,
    Tab.Scroll_body, ScrollViewport, Tab.GetActiveTerminalControl.
  tab_unfold. simpl. rewrite Hc. simpl. rewrite Hc. simpl. rewrite Hq. simpl.
  rewrite !decide_True by done. simpl. rewrite wrap_int_add_l.
  eexists. split; [reflexivity |]. simpl. rewrite decide_True by done.
  repeat split. by rewrite <- app_assoc.
Qed.

Lemma queued_scrolls_add_up_witness :
  Tab.GetActiveTerminalControl sample_tab = Some 7 /\
  pending sample_env1 = [] /\
  exists e',
    @perform_all sample_ColorHelper
      [Call_Scroll 3; Call_Scroll (-5); Dispatch; Dispatch]
      (Tab.mkWorld (Some sample_tab) sample_env1)
      = Some (Tab.mkWorld (Some sample_tab) e') /\
    trace e' = trace sample_env1
               ++ [ControlScrollViewport 7 3; ControlScrollViewport 7 (-2)] /\
    Control.ScrollOffset (controls e' 7) = (-2)%Z /\
    pending e' = [].
Proof.
  split; [reflexivity |]. split; [reflexivity |].
  apply (@queued_scrolls_add_up sample_ColorHelper sample_tab sample_env1 7 3 (-5));
    reflexivity.
Defined.
